(** * A two-step research pipeline: search, then draft

    Shallow embedding of the three pipeline scripts of the repository
    ([maincode.py], [newmain.py], [accuracy.py]) and the properties their
    specification states about them.

    Layout:
    - [Py]: the fragment of Python the scripts rely on (text, dynamic
      values, exceptions, the string methods they call);
    - [ResearchState], the two collaborators and the runtime tables;
    - one module per script, each with [research_agent],
      [answer_drafting_agent] and [run_research_system];
    - the properties.

    Progress messages written with [print] are not part of the model. *)

From Stdlib Require Import List NArith ZArith Bool Lia String Ascii DecimalString.
Import ListNotations.

(* ===================================================================== *)
(** ** The Python fragment *)
(* ===================================================================== *)

Module Py.

Local Open Scope N_scope.

(** A Python [str] is a sequence of Unicode code points. *)
Definition str := list N.

(** ASCII literals. *)
Definition text (s : string) : str :=
  List.map N_of_ascii (list_ascii_of_string s).

Definition LF : N := 10.
Definition SPACE : N := 32.
Definition HYPHEN : N := 45.             (* "-" *)
Definition BULLET : N := 0x2022.         (* the bullet character *)
Definition REPLACEMENT : N := 0xFFFD.    (* the replacement character *)

Fixpoint str_eqb (a b : str) : bool :=
  match a, b with
  | [], [] => true
  | x :: a', y :: b' => N.eqb x y && str_eqb a' b'
  | _, _ => false
  end.

(** [str.isspace] on one code point: CPython's whitespace table. *)
Definition isspace (c : N) : bool :=
  ((9 <=? c) && (c <=? 13)) || ((28 <=? c) && (c <=? 32))
  || (c =? 0x85) || (c =? 0xA0) || (c =? 0x1680)
  || ((0x2000 <=? c) && (c <=? 0x200A))
  || (c =? 0x2028) || (c =? 0x2029) || (c =? 0x202F)
  || (c =? 0x205F) || (c =? 0x3000).

(** [s.lstrip()], [s.rstrip()], [s.strip()] with no argument. *)
Fixpoint lstrip (s : str) : str :=
  match s with
  | [] => []
  | c :: s' => if isspace c then lstrip s' else s
  end.

Definition rstrip (s : str) : str := rev (lstrip (rev s)).

Definition strip (s : str) : str := rstrip (lstrip s).

(** [s.startswith(p)] and the substring test [p in s]. *)
Fixpoint startswith (p s : str) : bool :=
  match p, s with
  | [], _ => true
  | _ :: _, [] => false
  | x :: p', y :: s' => N.eqb x y && startswith p' s'
  end.

Fixpoint contains (p s : str) : bool :=
  startswith p s ||
  match s with
  | [] => false
  | _ :: s' => contains p s'
  end.

(** [s.split(sep)] for a separator of one character. *)
Fixpoint split (sep : N) (s : str) : list str :=
  match s with
  | [] => [[]]
  | c :: s' =>
      if N.eqb c sep then [] :: split sep s'
      else match split sep s' with
           | l :: ls => (c :: l) :: ls
           | [] => [[c]]
           end
  end.

(** [sep.join(parts)]. *)
Fixpoint join (sep : str) (parts : list str) : str :=
  match parts with
  | [] => []
  | [l] => l
  | l :: rest => l ++ sep ++ join sep rest
  end.

(** [s.replace(old, new)] when [old] and [new] are single characters. *)
Definition replace (old new : N) (s : str) : str :=
  List.map (fun c => if N.eqb c old then new else c) s.

(** The values that reach the pipeline: what a decoded JSON document
    holds.  A [dict] keeps its entries in insertion order; numbers are
    only ever tested for their type and truth value, so one numeric
    constructor stands for [int] and [float]. *)
#[warnings="-register-all"]
Inductive value : Type :=
| VNone
| VBool (b : bool)
| VInt (z : Z)
| VStr (s : str)
| VList (l : list value)
| VDict (d : list (str * value)).

(** Exceptions below [Exception]: the two the interpreter raises on the
    operations used here, and whatever a collaborator raises. *)
Inductive exn : Type :=
| AttributeError
| TypeError
| ProviderError (msg : str).

Inductive result (A : Type) : Type :=
| Returns (a : A)
| Raises (e : exn).
Arguments Returns {A} a.
Arguments Raises {A} e.

Definition bind {A B} (c : result A) (k : A -> result B) : result B :=
  match c with
  | Returns a => k a
  | Raises e => Raises e
  end.

Declare Scope py_scope.
Delimit Scope py_scope with py.
Notation "x <- c ;; k" := (bind c (fun x => k))
  (at level 61, c at next level, right associativity) : py_scope.
Local Open Scope py_scope.

(** A list comprehension whose element expression may raise. *)
Fixpoint comprehension {A B} (f : A -> result B) (l : list A)
  : result (list B) :=
  match l with
  | [] => Returns []
  | x :: l' => y <- f x ;; ys <- comprehension f l' ;; Returns (y :: ys)
  end.

(** A list comprehension with an [if] clause that may raise. *)
Fixpoint comprehension_if {A} (keep : A -> result bool) (l : list A)
  : result (list A) :=
  match l with
  | [] => Returns []
  | x :: l' =>
      b <- keep x ;;
      ys <- comprehension_if keep l' ;;
      Returns (if b then x :: ys else ys)
  end.

(** [all(p(x) for x in l)]: stops at the first false element. *)
Fixpoint all {A} (p : A -> result bool) (l : list A) : result bool :=
  match l with
  | [] => Returns true
  | x :: l' => b <- p x ;; if b then all p l' else Returns false
  end.

Fixpoint dict_lookup (d : list (str * value)) (k : str) : option value :=
  match d with
  | [] => None
  | (k', v) :: d' => if str_eqb k' k then Some v else dict_lookup d' k
  end.

(** [x.get(key, default)]: only a [dict] has the method. *)
Definition get (x : value) (key : str) (default : value) : result value :=
  match x with
  | VDict d =>
      Returns (match dict_lookup d key with
               | Some v => v
               | None => default
               end)
  | _ => Raises AttributeError
  end.

(** The elements a [for] loop sees. *)
Definition iter (x : value) : result (list value) :=
  match x with
  | VList l => Returns l
  | VDict d => Returns (List.map (fun kv => VStr (fst kv)) d)
  | VStr s => Returns (List.map (fun c => VStr [c]) s)
  | _ => Raises TypeError
  end.

(** [x.strip()]: only a [str] has the method. *)
Definition strip_method (x : value) : result str :=
  match x with
  | VStr s => Returns (strip s)
  | _ => Raises AttributeError
  end.

Definition is_str (s : str) (x : value) : bool :=
  match x with
  | VStr t => str_eqb t s
  | _ => false
  end.

(** [needle in x] for a text [needle]. *)
Definition contains_op (needle : str) (x : value) : result bool :=
  match x with
  | VStr s => Returns (contains needle s)
  | VList l => Returns (existsb (is_str needle) l)
  | VDict d => Returns (existsb (fun kv => str_eqb (fst kv) needle) d)
  | _ => Raises TypeError
  end.

(** [len(x)]. *)
Definition len (x : value) : result N :=
  match x with
  | VStr s => Returns (N.of_nat (List.length s))
  | VList l => Returns (N.of_nat (List.length l))
  | VDict d => Returns (N.of_nat (List.length d))
  | _ => Raises TypeError
  end.

(** Truth value, as [or] and [not] test it. *)
Definition truthy (x : value) : bool :=
  match x with
  | VNone => false
  | VBool b => b
  | VInt z => negb (Z.eqb z 0%Z)
  | VStr s => negb (str_eqb s [])
  | VList l => match l with [] => false | _ => true end
  | VDict d => match d with [] => false | _ => true end
  end.

(** The name [type(x)] prints. *)
Definition class_name (x : value) : str :=
  match x with
  | VNone => text "NoneType"
  | VBool _ => text "bool"
  | VInt _ => text "int"
  | VStr _ => text "str"
  | VList _ => text "list"
  | VDict _ => text "dict"
  end.

(** [not s] for a text [s]. *)
Definition is_empty (s : str) : bool :=
  match s with
  | [] => true
  | _ :: _ => false
  end.

(** [try: body  except Exception as e: handler]. *)
Definition try_except {A} (body : result A) (handler : exn -> A) : A :=
  match body with
  | Returns a => a
  | Raises e => handler e
  end.

(** What the interpreter supplies and the scripts do not define:
    [str.isprintable] on one code point (a property of the Unicode
    database the interpreter ships) and [format], the text an f-string
    puts in place of a value ([repr] of it for a list). *)
Class Runtime : Type := {
  isprintable : N -> bool;
  format : value -> str
}.

(** The part of the Unicode database the properties rely on: the ASCII
    range, where only 0x20..0x7E is printable, and U+FFFD, a symbol. *)
Class UnicodeFacts (R : Runtime) : Prop := {
  isprintable_ascii :
    forall c, c < 128 -> isprintable c = (32 <=? c) && (c <? 127);
  isprintable_replacement : isprintable REPLACEMENT = true
}.

End Py.

Import Py.
Local Open Scope py_scope.

(* ===================================================================== *)
(** ** The state record, the collaborators and the workflow engine *)
(* ===================================================================== *)

(** The [ResearchState] dataclass.  A dataclass does not check the
    annotated types of its fields, so each field holds a value. *)
Record ResearchState : Type := mkResearchState {
  query : value;
  research_data : value;
  answer_draft : value
}.

(** What [executor.invoke] hands back: an instance of the state class or
    any other value (a [dict] of the fields, in particular). *)
Inductive object : Type :=
| OState (s : ResearchState)
| OValue (v : value).

Inductive engine_shape : Type :=
| ReturnsState
| ReturnsMapping.

(** The module-level clients and the compiled workflow, all three outside
    the scripts:
    - [client.search(query=q, num_results=5)];
    - [hf_client.text_generation(prompt, max_new_tokens=500)];
    - the form in which the compiled graph returns the final state. *)
Class World : Type := {
  client_search : value -> result value;
  hf_client_text_generation : str -> result value;
  executor_shape : engine_shape
}.

Definition state_as_dict (s : ResearchState) : value :=
  VDict [ (text "query", query s);
          (text "research_data", research_data s);
          (text "answer_draft", answer_draft s) ].

(** The compiled graph of each script: entry point [research], an edge
    from [research] to [draft], an edge from [draft] to [END]. *)
Definition executor_invoke {W : World}
  (research draft : ResearchState -> ResearchState)
  (state : ResearchState) : object :=
  let final := draft (research state) in
  match executor_shape with
  | ReturnsState => OState final
  | ReturnsMapping => OValue (state_as_dict final)
  end.

Definition FIELDS : list str :=
  [text "query"; text "research_data"; text "answer_draft"].

(** The constructor called with the entries of a dict as keyword
    arguments: every key must name a field and every field must be
    given, or the call raises [TypeError]. *)
Definition ResearchState_from_kwargs (d : list (str * value))
  : result ResearchState :=
  if forallb (fun kv => existsb (str_eqb (fst kv)) FIELDS) d then
    match dict_lookup d (text "query"),
          dict_lookup d (text "research_data"),
          dict_lookup d (text "answer_draft") with
    | Some q, Some r, Some a => Returns (mkResearchState q r a)
    | _, _, _ => Raises TypeError
    end
  else Raises TypeError.

(** The sentinels, as the scripts spell them. *)
Definition NO_CONTENT : str := text "No content available.".
Definition NO_RESULTS : str := text "No relevant search results.".
Definition SEARCH_ERROR : str := text "Error fetching results".
Definition NO_ANSWER : str := text "Error: No answer generated.".
Definition CORRUPTED : str :=
  text "Error: The AI response was corrupted. Please try again.".
Definition DRAFT_ERROR : str := text "Error fetching response.".

Definition indent : str := text "        ".

(* ===================================================================== *)
(** ** maincode.py *)
(* ===================================================================== *)

Module Maincode.
Section Script.
Context {R : Runtime} {W : World}.

Definition research_agent (state : ResearchState) : ResearchState :=
  try_except
    (response <- client_search (query state) ;;
     results <- get response (text "results") (VList []) ;;
     results <- iter results ;;
     research_data <-
       comprehension (fun res => get res (text "content") (VStr NO_CONTENT))
                     results ;;
     no_useful <-
       match research_data with
       | [] => Returns true
       | _ :: _ =>
           all (fun item => s <- strip_method item ;; Returns (is_empty s))
               research_data
       end ;;
     let research_data :=
       if no_useful then [VStr NO_RESULTS] else research_data in
     Returns (mkResearchState (query state) (VList research_data) (VStr [])))
    (fun _ =>
       mkResearchState (query state) (VList [VStr SEARCH_ERROR]) (VStr [])).

Definition sanitize_response (response_text : str) : str :=
  List.filter isprintable response_text.

Definition prompt (data : value) : str :=
  [LF]
  ++ indent ++ text "Based on the following research results, generate a structured, insightful answer." ++ [LF]
  ++ indent ++ text "Avoid excessive bullet points or repetitive information. Make the answer concise and readable." ++ [LF]
  ++ [LF]
  ++ indent ++ text "Research Data:" ++ [LF]
  ++ indent ++ format data ++ [LF]
  ++ [LF]
  ++ indent ++ text "Format the answer with short paragraphs and use headings when necessary." ++ [LF]
  ++ indent.

(** Removal of the empty lines: [join] of the lines that are not blank. *)
Definition remove_empty_lines (answer_text : str) : str :=
  join [LF]
       (List.filter (fun line => negb (is_empty (strip line)))
                    (split LF answer_text)).

(** The statements of [answer_drafting_agent] between the call and the
    [return], in two parts: the text after the corruption check, then
    the post-processing. *)
Definition checked_text (response : value) : str :=
  let answer_text :=
    match response with
    | VStr s => sanitize_response (strip s)
    | _ => NO_ANSWER
    end in
  if is_empty answer_text || contains [REPLACEMENT] answer_text
  then CORRUPTED else answer_text.

Definition clean_answer (response : value) : str :=
  let answer_text := checked_text response in
  let cleaned_answer := remove_empty_lines answer_text in
  replace BULLET HYPHEN cleaned_answer.

Definition answer_drafting_agent (state : ResearchState) : ResearchState :=
  try_except
    (response <- hf_client_text_generation (prompt (research_data state)) ;;
     Returns (mkResearchState (query state) (research_data state)
                              (VStr (clean_answer response))))
    (fun _ =>
       mkResearchState (query state) (research_data state) (VStr DRAFT_ERROR)).

(** The end of [run_research_system]: from the final value to the
    answer. *)
Definition read_final_state (final_state : object) : result value :=
  final_state <-
    match final_state with
    | OValue (VDict d) =>
        s <- ResearchState_from_kwargs d ;; Returns (OState s)
    | _ => Returns final_state
    end ;;
  match final_state with
  | OState s =>
      Returns (if truthy (answer_draft s) then answer_draft s
               else VStr NO_ANSWER)
  | OValue v =>
      Returns (VStr (text "Error: Unexpected final state structure. Received type: <class '"
                     ++ class_name v ++ text "'>"))
  end.

Definition run_research_system (user_query : str) : result value :=
  let state := mkResearchState (VStr user_query) (VList []) (VStr []) in
  let final_state :=
    executor_invoke research_agent answer_drafting_agent state in
  read_final_state final_state.

End Script.
End Maincode.

(* ===================================================================== *)
(** ** newmain.py *)
(* ===================================================================== *)

(** The garbage patterns the two later scripts look for. *)
Definition GARBAGE : list str := [text "--c2-"; text "( ( ("; text "< ( ("].

Module Newmain.
Section Script.
Context {R : Runtime} {W : World}.

Definition research_agent (state : ResearchState) : ResearchState :=
  try_except
    (response <- client_search (query state) ;;
     results <- get response (text "results") (VList []) ;;
     results <- iter results ;;
     research_data <-
       comprehension (fun res => get res (text "content") (VStr NO_CONTENT))
                     results ;;
     no_useful <-
       match research_data with
       | [] => Returns true
       | _ :: _ =>
           all (fun item => s <- strip_method item ;; Returns (is_empty s))
               research_data
       end ;;
     let research_data :=
       if no_useful then [VStr NO_RESULTS] else research_data in
     Returns (mkResearchState (query state) (VList research_data) (VStr [])))
    (fun _ =>
       mkResearchState (query state) (VList [VStr SEARCH_ERROR]) (VStr [])).

Definition prompt (data : value) : str :=
  [LF]
  ++ indent ++ text "Based on the following research results, generate a structured, insightful answer:" ++ [LF]
  ++ indent ++ [LF]
  ++ indent ++ text "Research Data:" ++ [LF]
  ++ indent ++ format data ++ [LF]
  ++ indent ++ [LF]
  ++ indent ++ text "Ensure clarity, credibility, and a well-organized format." ++ [LF]
  ++ indent.

(** The text the drafting step stores for a response; the [dict]
    branch raises when the field is not a text. *)
Definition checked_answer (response : value) : result str :=
  answer_text <-
    match response with
    | VStr s => Returns (strip s)
    | VDict _ =>
        generated <- get response (text "generated_text") (VStr []) ;;
        strip_method generated
    | _ => Returns NO_ANSWER
    end ;;
  Returns (if is_empty answer_text
              || existsb (fun char => contains char answer_text) GARBAGE
           then CORRUPTED else answer_text).

Definition answer_drafting_agent (state : ResearchState) : ResearchState :=
  try_except
    (response <- hf_client_text_generation (prompt (research_data state)) ;;
     answer_text <- checked_answer response ;;
     Returns (mkResearchState (query state) (research_data state)
                              (VStr answer_text)))
    (fun _ =>
       mkResearchState (query state) (research_data state) (VStr DRAFT_ERROR)).

Definition read_final_state (final_state : object) : result value :=
  final_state <-
    match final_state with
    | OValue (VDict d) =>
        s <- ResearchState_from_kwargs d ;; Returns (OState s)
    | _ => Returns final_state
    end ;;
  match final_state with
  | OState s =>
      Returns (if truthy (answer_draft s) then answer_draft s
               else VStr NO_ANSWER)
  | OValue v =>
      Returns (VStr (text "Error: Unexpected final state structure. Received type: <class '"
                     ++ class_name v ++ text "'>"))
  end.

Definition run_research_system (user_query : str) : result value :=
  let state := mkResearchState (VStr user_query) (VList []) (VStr []) in
  let final_state :=
    executor_invoke research_agent answer_drafting_agent state in
  read_final_state final_state.

End Script.
End Newmain.

(* ===================================================================== *)
(** ** accuracy.py *)
(* ===================================================================== *)

Module Accuracy.
Section Script.
Context {R : Runtime} {W : World}.

(** The [if] clause of the quality filter:
    ["No content" not in res and len(res) > 50]. *)
Definition good_quality (res : value) : result bool :=
  found <- contains_op (text "No content") res ;;
  if found then Returns false
  else n <- len res ;; Returns (50 <? n)%N.

Definition research_agent (state : ResearchState) : ResearchState :=
  try_except
    (response <- client_search (query state) ;;
     results <- get response (text "results") (VList []) ;;
     results <- iter results ;;
     research_data <-
       comprehension (fun res => get res (text "content") (VStr NO_CONTENT))
                     results ;;
     filtered_data <- comprehension_if good_quality research_data ;;
     let filtered_data :=
       match filtered_data with
       | [] => [VStr NO_RESULTS]
       | _ :: _ => filtered_data
       end in
     Returns (mkResearchState (query state) (VList filtered_data) (VStr [])))
    (fun _ =>
       mkResearchState (query state) (VList [VStr SEARCH_ERROR]) (VStr [])).

Definition prompt (data : value) : str :=
  [LF]
  ++ indent ++ text "You are an AI assistant providing highly accurate, factual answers." ++ [LF]
  ++ indent ++ text "Strictly base your response on the research data provided." ++ [LF]
  ++ indent ++ text "Avoid assumptions and provide structured, well-cited responses." ++ [LF]
  ++ [LF]
  ++ indent ++ text "Research Data:" ++ [LF]
  ++ indent ++ format data ++ [LF]
  ++ [LF]
  ++ indent ++ text "Output a fact-checked, well-structured response." ++ [LF]
  ++ indent.

Definition checked_answer (response : value) : result str :=
  answer_text <-
    match response with
    | VStr s => Returns (strip s)
    | VDict _ =>
        generated <- get response (text "generated_text") (VStr []) ;;
        strip_method generated
    | _ => Returns NO_ANSWER
    end ;;
  Returns (if is_empty answer_text
              || existsb (fun char => contains char answer_text) GARBAGE
           then CORRUPTED else answer_text).

Definition answer_drafting_agent (state : ResearchState) : ResearchState :=
  try_except
    (response <- hf_client_text_generation (prompt (research_data state)) ;;
     answer_text <- checked_answer response ;;
     Returns (mkResearchState (query state) (research_data state)
                              (VStr answer_text)))
    (fun _ =>
       mkResearchState (query state) (research_data state) (VStr DRAFT_ERROR)).

Definition read_final_state (final_state : object) : result value :=
  final_state <-
    match final_state with
    | OValue (VDict d) =>
        s <- ResearchState_from_kwargs d ;; Returns (OState s)
    | _ => Returns final_state
    end ;;
  match final_state with
  | OState s => Returns (answer_draft s)
  | OValue _ => Returns (VStr (text "Error: Unexpected state."))
  end.

Definition run_research_system (user_query : str) : result value :=
  let state := mkResearchState (VStr user_query) (VList []) (VStr []) in
  let final_state :=
    executor_invoke research_agent answer_drafting_agent state in
  read_final_state final_state.

End Script.
End Accuracy.

(* ===================================================================== *)
(** ** Sample runtime and collaborators *)
(* ===================================================================== *)

(** Concrete tables and clients on which the scripts can be run.  The
    properties below are proved for every runtime and every world; these
    instances serve the examples. *)
Module Sample.

Local Open Scope N_scope.

(** Printable code points: exact on ASCII; beyond it, everything but
    whitespace, the C1 controls, the soft hyphen, the zero-width and
    directional formats, the surrogates and the private-use area. *)
Definition isprintable (c : N) : bool :=
  if c <? 128 then (32 <=? c) && (c <? 127)
  else negb (isspace c
             || (c <=? 0x9F) || (c =? 0xAD)
             || ((0x200B <=? c) && (c <=? 0x200F))
             || ((0x202A <=? c) && (c <=? 0x202E))
             || ((0x2060 <=? c) && (c <=? 0x206F))
             || ((0xD800 <=? c) && (c <=? 0xF8FF))
             || (c =? 0xFEFF)).

(** A rendering of values: texts between single quotes, with no
    escapes; containers as Python prints them. *)
Fixpoint repr (x : value) : str :=
  match x with
  | VNone => text "None"
  | VBool true => text "True"
  | VBool false => text "False"
  | VInt z => text (DecimalString.NilZero.string_of_int (Z.to_int z))
  | VStr s => text "'" ++ s ++ text "'"
  | VList l => text "[" ++ join (text ", ") (List.map repr l) ++ text "]"
  | VDict d =>
      text "{"
      ++ join (text ", ")
              (List.map (fun kv => text "'" ++ fst kv ++ text "': "
                                   ++ repr (snd kv)) d)
      ++ text "}"
  end.

(** A text is formatted as itself, any other value as its [repr]. *)
Definition format (x : value) : str :=
  match x with
  | VStr s => s
  | _ => repr x
  end.

#[export] Instance runtime : Runtime :=
  {| Py.isprintable := isprintable; Py.format := format |}.

(** A world whose two clients answer the same thing to every request. *)
Definition world (search generation : result value) (shape : engine_shape)
  : World :=
  {| client_search := fun _ => search;
     hf_client_text_generation := fun _ => generation;
     executor_shape := shape |}.

(** A search response with the given contents. *)
Definition response_of (contents : list str) : value :=
  VDict [ (text "query", VStr (text "common cold treatment"));
          (text "results",
           VList (List.map (fun c => VDict [ (text "title", VStr (text "t"));
                                             (text "content", VStr c) ])
                           contents)) ].

(** Five results of more than fifty characters each. *)
Definition five_results : value :=
  response_of
    [ text "Rest, fluids and over-the-counter pain relievers ease the symptoms of a cold.";
      text "Decongestants can relieve a blocked nose, but should be used for a few days only.";
      text "Antibiotics do not work against the viruses that cause the common cold.";
      text "Most people recover from a common cold within seven to ten days without care.";
      text "Honey and warm drinks soothe a sore throat and a cough in adults and older children." ].

Definition a_query : str := text "common cold treatment".

Definition initial_state : ResearchState :=
  mkResearchState (VStr a_query) (VList []) (VStr []).

(** Both clients answer. *)
Definition healthy : World :=
  world (Returns five_results)
        (Returns (VStr (text "  Rest and drink fluids; antibiotics do not help.  ")))
        ReturnsMapping.

(** The search provider fails. *)
Definition search_down : World :=
  world (Raises (ProviderError (text "503 Service Unavailable")))
        (Returns (VStr (text "No data is available.")))
        ReturnsMapping.

(** The inference endpoint fails. *)
Definition generation_down : World :=
  world (Returns five_results)
        (Raises (ProviderError (text "429 Too Many Requests")))
        ReturnsState.

(** The search returns two results with nothing but whitespace. *)
Definition blank_results : World :=
  world (Returns (response_of [text "   "; []]))
        (Returns (VStr (text "No data is available.")))
        ReturnsState.

(** The search returns results of fifty characters or fewer. *)
Definition short_results : World :=
  world (Returns (response_of [text "Rest helps."; text "Drink fluids."]))
        (Returns (VStr (text "No data is available.")))
        ReturnsState.

(** The search response has no [results] field. *)
Definition no_results_field : World :=
  world (Returns (VDict [ (text "query", VStr a_query) ]))
        (Returns (VStr (text "No data is available.")))
        ReturnsState.

(** The model emits a space between two NUL characters. *)
Definition blank_generation : World :=
  world (Returns five_results) (Returns (VStr [0; SPACE; 0])) ReturnsState.

(** The model emits one of the garbage patterns. *)
Definition garbage_generation : World :=
  world (Returns five_results)
        (Returns (VStr (text "The cold --c2- is a virus")))
        ReturnsState.

(** The model emits a replacement character. *)
Definition mojibake_generation : World :=
  world (Returns five_results)
        (Returns (VStr (text "Rest " ++ [REPLACEMENT])))
        ReturnsState.

(** A blank result, a real one and a result whose content is [null]. *)
Definition mixed_response : value :=
  VDict [ (text "results",
           VList [ VDict [ (text "content", VStr (text "  ")) ];
                   VDict [ (text "content", VStr (text "Rest helps.")) ];
                   VDict [ (text "content", VNone) ] ]) ].

Definition mixed_results : World :=
  world (Returns mixed_response) (Raises TypeError) ReturnsState.

(** Two results that carry a title but no content. *)
Definition untitled_results : World :=
  world (Returns (VDict [ (text "results",
                           VList [ VDict [ (text "title", VStr (text "Colds")) ];
                                   VDict [ (text "title", VStr (text "Flu")) ] ]) ]))
        (Returns (VStr (text "No data is available.")))
        ReturnsState.

(** A response whose second result is a bare text. *)
Definition bare_text_response : value :=
  VDict [ (text "results",
           VList [ VDict [ (text "content", VStr (text "Rest helps.")) ];
                   VStr (text "Drink fluids.") ]) ].

Definition bare_text_result : World :=
  world (Returns bare_text_response)
        (Returns (VStr (text "No data is available.")))
        ReturnsState.

(** A response whose first content is [null]. *)
Definition null_first_response : value :=
  VDict [ (text "results",
           VList [ VDict [ (text "content", VNone) ];
                   VDict [ (text "content", VStr (text "Rest helps.")) ] ]) ].

Definition null_first : World :=
  world (Returns null_first_response)
        (Returns (VStr (text "No data is available.")))
        ReturnsState.

(** The model answers with a structured response. *)
Definition structured_generation : World :=
  world (Returns five_results)
        (Returns (VDict [ (text "generated_text", VStr (text " Rest. ")) ]))
        ReturnsState.

(** The model answers with a structured response whose text is [null]. *)
Definition null_generation : World :=
  world (Returns five_results)
        (Returns (VDict [ (text "generated_text", VNone) ]))
        ReturnsState.

(** The model answers with a list. *)
Definition list_generation : World :=
  world (Returns five_results)
        (Returns (VList [VStr (text "Rest.")]))
        ReturnsState.

(** The model answers with a bulleted list and a stray NUL character. *)
Definition bullet_generation : World :=
  world (Returns five_results)
        (Returns (VStr ([SPACE; BULLET] ++ text " Rest " ++ [0; BULLET]
                        ++ text " Fluids")))
        ReturnsState.

End Sample.


(* ===================================================================== *)
(** ** Vocabulary of the properties *)
(* ===================================================================== *)

(** The contents the research step extracts from a search response: the
    first statement of its [try] block after the call. *)
Definition contents_of (response : value) : result (list value) :=
  results <- get response (text "results") (VList []) ;;
  results <- iter results ;;
  comprehension (fun res => get res (text "content") (VStr NO_CONTENT)) results.

(** A blank item: a text with nothing but whitespace. *)
Definition blank (item : value) : Prop :=
  exists s, item = VStr s /\ strip s = [].

(** A text value that is not the empty string. *)
Definition nonempty_text (v : value) : Prop :=
  exists s, v = VStr s /\ s <> [].

(** The characters 0x20..0x7E. *)
Definition ascii_printable (s : str) : bool :=
  forallb (fun c => (32 <=? c) && (c <? 127))%N s.

(** The drafting chain of [maincode.py] on a generated text. *)
Definition sanitization_chain {R : Runtime} (generated : str) : str :=
  Maincode.clean_answer (VStr generated).

(* ===================================================================== *)
(** ** Module-level start-up of the three scripts *)
(* ===================================================================== *)

(** The statements each script runs when it is loaded, before the graph
    is built: the two keys are read from the environment, checked, and
    handed to the clients.  The environment is given by the two values
    [os.getenv] returns. *)
Module Startup.

(** The clients as the script configures them. *)
Record clients : Type := mkClients {
  tavily_key : str;
  hf_model : str;
  hf_token : option str
}.

Inductive outcome : Type :=
| Started (c : clients)
| ValueError (message : str).

Definition CROSS_MARK : N := 0x274C.

Definition TAVILY_MISSING : str :=
  CROSS_MARK :: text " Tavily API key is missing. Check your .env file.".
Definition HF_MISSING : str :=
  CROSS_MARK :: text " Hugging Face API key is missing. Check your .env file.".

Definition maincode (tavily_api_key huggingface_api_key : option str)
  : outcome :=
  match tavily_api_key with
  | None | Some [] => ValueError TAVILY_MISSING
  | Some tavily =>
      match huggingface_api_key with
      | None | Some [] => ValueError HF_MISSING
      | Some huggingface =>
          Started (mkClients tavily (text "tiiuae/falcon-7b-instruct")
                             (Some huggingface))
      end
  end.

Definition newmain (tavily_api_key huggingface_api_key : option str)
  : outcome :=
  match tavily_api_key with
  | None | Some [] => ValueError TAVILY_MISSING
  | Some tavily =>
      Started (mkClients tavily (text "HuggingFaceH4/zephyr-7b-beta") None)
  end.

Definition accuracy (tavily_api_key huggingface_api_key : option str)
  : outcome :=
  match tavily_api_key with
  | None | Some [] => ValueError TAVILY_MISSING
  | Some tavily =>
      Started (mkClients tavily (text "HuggingFaceH4/zephyr-7b-beta") None)
  end.

End Startup.

(* ===================================================================== *)
(** ** Further vocabulary *)
(* ===================================================================== *)

(** The content the research step reads from one result. *)
Definition content_or_default (res : list (str * value)) : value :=
  match dict_lookup res (text "content") with
  | Some v => v
  | None => VStr NO_CONTENT
  end.

(** The quality filter of [accuracy.py] on a text. *)
Definition good_text (s : str) : bool :=
  negb (contains (text "No content") s) && (50 <? N.of_nat (List.length s))%N.

(** A line that is not blank. *)
Definition nonblank (line : str) : bool := negb (is_empty (strip line)).

(** None of the garbage patterns occurs in the text. *)
Definition garbage_free (s : str) : bool :=
  negb (existsb (fun char => contains char s) GARBAGE).

(** A value that is not a text, a list or a dict: [None], a boolean or a
    number. *)
Definition scalar (v : value) : Prop :=
  v = VNone \/ (exists b, v = VBool b) \/ (exists z, v = VInt z).

(* ===================================================================== *)
(** ** Facts about the string methods *)
(* ===================================================================== *)

Section StringFacts.

Lemma str_eqb_eq (a b : str) : str_eqb a b = true <-> a = b.
Proof.
  revert b; induction a as [|x a IH]; intros [|y b]; simpl;
    try (split; [discriminate | discriminate]); try tauto.
  rewrite andb_true_iff, N.eqb_eq, IH.
  split; [intros [-> ->]; reflexivity | intros H; inversion H; auto].
Qed.

Lemma is_empty_true (s : str) : is_empty s = true <-> s = [].
Proof. destruct s; simpl; split; congruence. Qed.

Lemma is_empty_false (s : str) : is_empty s = false <-> s <> [].
Proof. destruct s; simpl; split; congruence. Qed.

(** *** [startswith] and [contains] *)

Lemma startswith_iff (p s : str) :
  startswith p s = true <-> exists b, s = p ++ b.
Proof.
  revert s; induction p as [|x p IH]; intros s; simpl.
  - split; [intros _; exists s; reflexivity | reflexivity].
  - destruct s as [|y s].
    + split; [discriminate | intros [b Hb]; discriminate].
    + rewrite andb_true_iff, N.eqb_eq, IH. split.
      * intros [-> [b ->]]. exists b; reflexivity.
      * intros [b Hb]. inversion Hb; subst. split; [reflexivity | eauto].
Qed.

Lemma contains_iff (p s : str) :
  contains p s = true <-> exists a b, s = a ++ p ++ b.
Proof.
  induction s as [|y s IH].
  - simpl. rewrite orb_false_r, startswith_iff. split.
    + intros [b Hb]. exists [], b. exact Hb.
    + intros [a [b Hab]]. destruct a; simpl in Hab.
      * exists b; exact Hab.
      * discriminate.
  - cbn [contains]. rewrite orb_true_iff, startswith_iff, IH. split.
    + intros [[b Hb] | [a [b Hab]]].
      * exists [], b. exact Hb.
      * exists (y :: a), b. rewrite Hab. reflexivity.
    + intros [[|z a] [b Hab]]; simpl in Hab.
      * left. exists b; exact Hab.
      * right. inversion Hab; subst. exists a, b; reflexivity.
Qed.

Lemma contains_single (c : N) (s : str) :
  contains [c] s = existsb (N.eqb c) s.
Proof.
  induction s as [|y s IH]; [reflexivity|].
  cbn [contains startswith existsb]. rewrite IH.
  destruct s; rewrite andb_true_r; reflexivity.
Qed.

Lemma contains_single_false (c : N) (s : str) :
  contains [c] s = false <-> ~ In c s.
Proof.
  rewrite contains_single. split.
  - intros H Hin. assert (existsb (N.eqb c) s = true) as E.
    { apply existsb_exists. exists c. split; [exact Hin | apply N.eqb_refl]. }
    congruence.
  - intros H. destruct (existsb (N.eqb c) s) eqn:E; [|reflexivity].
    apply existsb_exists in E. destruct E as [y [Hy Hc]].
    apply N.eqb_eq in Hc. subst. contradiction.
Qed.

(** *** [lstrip], [rstrip], [strip] *)

Lemma lstrip_app_nonspace (w : str) (q : N) (rest : str) :
  isspace q = false -> lstrip (w ++ q :: rest) = lstrip w ++ q :: rest.
Proof.
  intros Hq. induction w as [|c w IH]; simpl.
  - rewrite Hq. reflexivity.
  - destruct (isspace c); [exact IH | reflexivity].
Qed.

Lemma lstrip_head (s : str) :
  match lstrip s with
  | [] => True
  | c :: _ => isspace c = false
  end.
Proof.
  induction s as [|c s IH]; simpl; [exact I|].
  destruct (isspace c) eqn:E; [exact IH | exact E].
Qed.

Lemma lstrip_nonspace (c : N) (s : str) :
  isspace c = false -> lstrip (c :: s) = c :: s.
Proof. intros H. simpl. rewrite H. reflexivity. Qed.

Lemma lstrip_idempotent (s : str) : lstrip (lstrip s) = lstrip s.
Proof.
  pose proof (lstrip_head s) as H. destruct (lstrip s) as [|c u]; [reflexivity|].
  apply lstrip_nonspace; exact H.
Qed.

Lemma lstrip_length (s : str) : (List.length (lstrip s) <= List.length s)%nat.
Proof.
  induction s as [|c s IH]; simpl; [lia|].
  destruct (isspace c); simpl; lia.
Qed.

Lemma lstrip_same_length (s : str) :
  List.length (lstrip s) = List.length s -> lstrip s = s.
Proof.
  destruct s as [|c s]; simpl; [reflexivity|].
  destruct (isspace c); [|reflexivity].
  pose proof (lstrip_length s). simpl. lia.
Qed.

Lemma lstrip_Forall (P : N -> Prop) (s : str) :
  Forall P s -> Forall P (lstrip s).
Proof.
  induction 1 as [|c s Hc Hs IH]; simpl; [constructor|].
  destruct (isspace c); [exact IH | constructor; assumption].
Qed.

Lemma lstrip_map (f : N -> N) (s : str) :
  (forall c, isspace (f c) = isspace c) ->
  lstrip (List.map f s) = List.map f (lstrip s).
Proof.
  intros Hf. induction s as [|c s IH]; simpl; [reflexivity|].
  rewrite Hf. destruct (isspace c); [exact IH | reflexivity].
Qed.

Lemma rstrip_nil : rstrip [] = [].
Proof. reflexivity. Qed.

Lemma rstrip_app_nonspace (p : str) (q : N) (b : str) :
  isspace q = false -> rstrip (p ++ q :: b) = p ++ q :: rstrip b.
Proof.
  intros Hq. unfold rstrip.
  rewrite rev_app_distr. simpl rev. rewrite <- app_assoc. simpl app.
  rewrite lstrip_app_nonspace by exact Hq.
  rewrite rev_app_distr. simpl rev. rewrite rev_involutive.
  rewrite <- app_assoc. reflexivity.
Qed.

Lemma rstrip_nonspace (c : N) (u : str) :
  isspace c = false -> rstrip (c :: u) = c :: rstrip u.
Proof. intros H. exact (rstrip_app_nonspace [] c u H). Qed.

Lemma rstrip_idempotent (s : str) : rstrip (rstrip s) = rstrip s.
Proof.
  unfold rstrip. rewrite rev_involutive, lstrip_idempotent. reflexivity.
Qed.

Lemma rstrip_length (s : str) : (List.length (rstrip s) <= List.length s)%nat.
Proof.
  unfold rstrip. rewrite length_rev.
  pose proof (lstrip_length (rev s)) as H. rewrite length_rev in H. exact H.
Qed.

Lemma rstrip_same_length (s : str) :
  List.length (rstrip s) = List.length s -> rstrip s = s.
Proof.
  unfold rstrip. rewrite length_rev. intros H.
  rewrite lstrip_same_length by (rewrite length_rev; exact H).
  apply rev_involutive.
Qed.

Lemma rstrip_Forall (P : N -> Prop) (s : str) :
  Forall P s -> Forall P (rstrip s).
Proof.
  intros H. unfold rstrip. apply Forall_rev, lstrip_Forall, Forall_rev, H.
Qed.

Lemma rstrip_map (f : N -> N) (s : str) :
  (forall c, isspace (f c) = isspace c) ->
  rstrip (List.map f s) = List.map f (rstrip s).
Proof.
  intros Hf. unfold rstrip.
  rewrite <- map_rev, lstrip_map, map_rev by exact Hf. reflexivity.
Qed.

Lemma strip_nil : strip [] = [].
Proof. reflexivity. Qed.

Lemma strip_idempotent (s : str) : strip (strip s) = strip s.
Proof.
  unfold strip. pose proof (lstrip_head s) as H.
  destruct (lstrip s) as [|c u]; [reflexivity|].
  rewrite (rstrip_nonspace c u H), (lstrip_nonspace c _ H).
  rewrite (rstrip_nonspace c _ H), rstrip_idempotent. reflexivity.
Qed.

Lemma strip_length (s : str) : (List.length (strip s) <= List.length s)%nat.
Proof.
  unfold strip. pose proof (rstrip_length (lstrip s)).
  pose proof (lstrip_length s). lia.
Qed.

Lemma strip_same_length (s : str) :
  List.length (strip s) = List.length s -> strip s = s.
Proof.
  unfold strip. intros H.
  pose proof (rstrip_length (lstrip s)). pose proof (lstrip_length s).
  assert (lstrip s = s) as E by (apply lstrip_same_length; lia).
  rewrite E in *. apply rstrip_same_length. exact H.
Qed.

Lemma strip_Forall (P : N -> Prop) (s : str) :
  Forall P s -> Forall P (strip s).
Proof. intros H. apply rstrip_Forall, lstrip_Forall, H. Qed.

Lemma strip_map (f : N -> N) (s : str) :
  (forall c, isspace (f c) = isspace c) ->
  strip (List.map f s) = List.map f (strip s).
Proof.
  intros Hf. unfold strip. rewrite lstrip_map, rstrip_map by exact Hf.
  reflexivity.
Qed.

(** A text that holds a pattern delimited by two characters that are
    not whitespace still holds it once stripped. *)
Lemma contains_strip (c : N) (mid : str) (q : N) (s : str) :
  isspace c = false -> isspace q = false ->
  contains (c :: mid ++ [q]) s = true ->
  contains (c :: mid ++ [q]) (strip s) = true.
Proof.
  intros Hc Hq H.
  assert (E : forall a b : str,
             a ++ (c :: mid ++ [q]) ++ b = (a ++ c :: mid) ++ q :: b).
  { intros a b. simpl. rewrite <- !app_assoc. reflexivity. }
  apply contains_iff in H. destruct H as [a [b ->]].
  apply contains_iff. exists (lstrip a), (rstrip b).
  rewrite !E. unfold strip.
  rewrite <- app_assoc. simpl app.
  rewrite lstrip_app_nonspace by exact Hc.
  change (lstrip a ++ c :: mid ++ q :: b)
    with (lstrip a ++ (c :: mid) ++ q :: b).
  rewrite app_assoc. apply rstrip_app_nonspace. exact Hq.
Qed.

End StringFacts.

(* ===================================================================== *)
(** ** Facts about the sanitization of [maincode.py] *)
(* ===================================================================== *)

Section SanitizeFacts.
Context {R : Runtime} {U : UnicodeFacts R}.

Lemma strip_forallb (p : N -> bool) (s : str) :
  forallb p s = true -> forallb p (strip s) = true.
Proof.
  rewrite !forallb_forall, <- !Forall_forall. apply strip_Forall.
Qed.

Lemma isprintable_LF : isprintable LF = false.
Proof. rewrite isprintable_ascii by (unfold LF; lia). reflexivity. Qed.

Lemma isprintable_HYPHEN : isprintable HYPHEN = true.
Proof. rewrite isprintable_ascii by (unfold HYPHEN; lia). reflexivity. Qed.

Lemma ascii_printable_isprintable (s : str) :
  ascii_printable s = true -> forallb isprintable s = true.
Proof.
  unfold ascii_printable. rewrite !forallb_forall. intros H c Hc.
  specialize (H c Hc). rewrite isprintable_ascii; [exact H|].
  apply andb_true_iff in H. destruct H as [_ H]. apply N.ltb_lt in H. lia.
Qed.

Lemma sanitize_response_printable (s : str) :
  forallb isprintable (Maincode.sanitize_response s) = true.
Proof. apply forallb_filter. Qed.

Lemma sanitize_response_fixed (s : str) :
  forallb isprintable s = true -> Maincode.sanitize_response s = s.
Proof. apply forallb_filter_id. Qed.

Lemma sanitize_response_idempotent (s : str) :
  Maincode.sanitize_response (Maincode.sanitize_response s)
  = Maincode.sanitize_response s.
Proof. apply sanitize_response_fixed, sanitize_response_printable. Qed.

Lemma printable_no_LF (s : str) :
  forallb isprintable s = true -> ~ In LF s.
Proof.
  rewrite forallb_forall. intros H Hin. specialize (H LF Hin).
  rewrite isprintable_LF in H. discriminate.
Qed.

Lemma split_no_sep (sep : N) (s : str) : ~ In sep s -> split sep s = [s].
Proof.
  induction s as [|c s IH]; intros H; simpl; [reflexivity|].
  destruct (N.eqb_spec c sep) as [->|Hne].
  - exfalso. apply H. left. reflexivity.
  - rewrite IH; [reflexivity|]. intros Hin. apply H. right. exact Hin.
Qed.

Lemma remove_empty_lines_one_line (s : str) :
  ~ In LF s ->
  Maincode.remove_empty_lines s = if is_empty (strip s) then [] else s.
Proof.
  intros H. unfold Maincode.remove_empty_lines.
  rewrite split_no_sep by exact H. simpl.
  destruct (is_empty (strip s)); reflexivity.
Qed.

Lemma replace_bullet_space (c : N) :
  isspace (if N.eqb c BULLET then HYPHEN else c) = isspace c.
Proof. destruct (N.eqb_spec c BULLET) as [->|]; reflexivity. Qed.

Lemma replace_bullet_idempotent (s : str) :
  replace BULLET HYPHEN (replace BULLET HYPHEN s) = replace BULLET HYPHEN s.
Proof.
  unfold replace. rewrite map_map. apply map_ext. intros c.
  destruct (N.eqb_spec c BULLET) as [->|Hne]; [reflexivity|].
  destruct (N.eqb_spec c BULLET); [contradiction | reflexivity].
Qed.

Lemma replace_bullet_printable (s : str) :
  forallb isprintable s = true ->
  forallb isprintable (replace BULLET HYPHEN s) = true.
Proof.
  rewrite !forallb_forall. intros H c Hc. unfold replace in Hc.
  apply in_map_iff in Hc. destruct Hc as [x [<- Hx]].
  destruct (N.eqb x BULLET); [apply isprintable_HYPHEN | apply H, Hx].
Qed.

Lemma replace_bullet_no_new (c : N) (s : str) :
  c <> HYPHEN -> ~ In c s -> ~ In c (replace BULLET HYPHEN s).
Proof.
  intros Hc H Hin. unfold replace in Hin.
  apply in_map_iff in Hin. destruct Hin as [x [Hx Hin]].
  destruct (N.eqb x BULLET); [congruence | subst; contradiction].
Qed.

Lemma replace_bullet_strip (s : str) :
  strip (replace BULLET HYPHEN s) = replace BULLET HYPHEN (strip s).
Proof. apply strip_map. exact replace_bullet_space. Qed.

Lemma replace_bullet_nil (s : str) :
  replace BULLET HYPHEN s = [] -> s = [].
Proof. destruct s; [reflexivity | discriminate]. Qed.

(** What the chain computes, by cases on the sanitized text. *)
Lemma sanitization_chain_cases (x : str) :
  let t := Maincode.sanitize_response (strip x) in
  sanitization_chain x =
    if is_empty t || contains [REPLACEMENT] t then CORRUPTED
    else if is_empty (strip t) then []
    else replace BULLET HYPHEN t.
Proof.
  intros t. unfold sanitization_chain, Maincode.clean_answer,
    Maincode.checked_text. cbv zeta. fold t.
  destruct (is_empty t || contains [REPLACEMENT] t); [reflexivity|].
  rewrite remove_empty_lines_one_line
    by (apply printable_no_LF, sanitize_response_printable).
  destruct (is_empty (strip t)); reflexivity.
Qed.

Lemma sanitization_chain_ascii (s : str) :
  ascii_printable s = true -> strip s = s -> s <> [] ->
  sanitization_chain s = s.
Proof.
  intros Hp Hs Hne. pose proof (sanitization_chain_cases s) as E.
  cbv zeta in E. rewrite Hs in E.
  pose proof (ascii_printable_isprintable s Hp) as Hpr.
  rewrite (sanitize_response_fixed s Hpr) in E. rewrite Hs in E.
  assert (contains [REPLACEMENT] s = false) as HR.
  { apply contains_single_false. intros Hin.
    unfold ascii_printable in Hp. rewrite forallb_forall in Hp.
    specialize (Hp _ Hin). vm_compute in Hp. discriminate. }
  assert (replace BULLET HYPHEN s = s) as HB.
  { unfold replace. rewrite <- (map_id s) at 2. apply map_ext_in.
    intros c Hc. destruct (N.eqb_spec c BULLET) as [->|]; [|reflexivity].
    unfold ascii_printable in Hp. rewrite forallb_forall in Hp.
    specialize (Hp _ Hc). vm_compute in Hp. discriminate. }
  apply is_empty_false in Hne. rewrite Hne, HR, HB in E. exact E.
Qed.

Lemma sanitization_chain_CORRUPTED : sanitization_chain CORRUPTED = CORRUPTED.
Proof. apply sanitization_chain_ascii; [reflexivity | reflexivity | discriminate]. Qed.

Lemma sanitization_chain_nil : sanitization_chain [] = CORRUPTED.
Proof. reflexivity. Qed.

End SanitizeFacts.

(** The sample table has the two facts the properties need. *)
Lemma sample_unicode_facts : UnicodeFacts Sample.runtime.
Proof.
  split.
  - intros c Hc. simpl. unfold Sample.isprintable.
    apply N.ltb_lt in Hc. rewrite Hc. reflexivity.
  - reflexivity.
Qed.

(* ===================================================================== *)
(** ** The sanitization chain (claims C7, C9, C10) *)
(* ===================================================================== *)

(** On a text of ASCII characters the sanitization does not depend on the
    runtime, so it can be evaluated with the sample table. *)
Lemma sanitize_response_ascii (R : Runtime) (U : UnicodeFacts R) (s : str) :
  forallb (fun c => c <? 128)%N s = true ->
  Maincode.sanitize_response (R:=R) s
  = Maincode.sanitize_response (R:=Sample.runtime) s.
Proof.
  intros H. unfold Maincode.sanitize_response. apply filter_ext_in.
  intros c Hc. rewrite forallb_forall in H. specialize (H c Hc).
  apply N.ltb_lt in H.
  rewrite (isprintable_ascii (R:=R)) by exact H.
  rewrite (isprintable_ascii (UnicodeFacts:=sample_unicode_facts)) by exact H.
  reflexivity.
Qed.

Lemma checked_text_ascii (R : Runtime) (U : UnicodeFacts R) (x : str) :
  forallb (fun c => c <? 128)%N x = true ->
  Maincode.checked_text (R:=R) (VStr x)
  = Maincode.checked_text (R:=Sample.runtime) (VStr x).
Proof.
  intros H. unfold Maincode.checked_text.
  rewrite (sanitize_response_ascii R U) by (apply strip_forallb; exact H).
  reflexivity.
Qed.

Lemma sanitization_chain_ascii_input (R : Runtime) (U : UnicodeFacts R) (x : str) :
  forallb (fun c => c <? 128)%N x = true ->
  sanitization_chain (R:=R) x = sanitization_chain (R:=Sample.runtime) x.
Proof.
  intros H. unfold sanitization_chain, Maincode.clean_answer.
  rewrite (checked_text_ascii R U) by exact H. reflexivity.
Qed.

(* ===================================================================== *)
(** ** The sanitization chain (claims C7, C9, C10) *)
(* ===================================================================== *)

(** The chain applied twice differs from the chain applied once on a
    control character followed by a space and a letter, whatever the
    runtime. *)
Lemma chain_twice_differs (R : Runtime) (U : UnicodeFacts R) :
  sanitization_chain (sanitization_chain [0; SPACE; 97]%N)
  <> sanitization_chain [0; SPACE; 97]%N.
Proof.
  rewrite (sanitization_chain_ascii_input R U [0; SPACE; 97]%N) by reflexivity.
  change (sanitization_chain (R:=Sample.runtime) [0; SPACE; 97]%N)
    with [SPACE; 97]%N.
  rewrite (sanitization_chain_ascii_input R U [SPACE; 97]%N) by reflexivity.
  vm_compute. discriminate.
Qed.

Lemma strip_not_In (c : N) (s : str) : ~ In c s -> ~ In c (strip s).
Proof.
  intros H Hin.
  assert (Forall (fun y => y <> c) (strip s)) as F.
  { apply strip_Forall, Forall_forall. intros y Hy ->. contradiction. }
  rewrite Forall_forall in F. exact (F c Hin eq_refl).
Qed.

(** When re-applying the chain gives the same text: exactly when the
    stripped and sanitized text holds a replacement character or has no
    whitespace left at either end. *)
Lemma sanitization_chain_idempotent_iff (R : Runtime) (U : UnicodeFacts R)
  (x : str) :
  let t := Maincode.sanitize_response (strip x) in
  sanitization_chain (sanitization_chain x) = sanitization_chain x
  <-> contains [REPLACEMENT] t = true \/ strip t = t.
Proof.
  intros t.
  rewrite (sanitization_chain_cases x). fold t.
  assert (forallb isprintable t = true) as Ht
    by apply sanitize_response_printable.
  destruct (is_empty t) eqn:Et; simpl orb.
  - rewrite sanitization_chain_CORRUPTED.
    apply is_empty_true in Et. rewrite Et. split; auto.
  - destruct (contains [REPLACEMENT] t) eqn:Ec.
    + rewrite sanitization_chain_CORRUPTED. split; auto.
    + destruct (is_empty (strip t)) eqn:Es.
      * rewrite sanitization_chain_nil.
        apply is_empty_true in Es. apply is_empty_false in Et.
        split; [discriminate|]. intros [H|H]; [discriminate | congruence].
      * assert (sanitization_chain (replace BULLET HYPHEN t)
                = replace BULLET HYPHEN (strip t)) as E.
        { rewrite sanitization_chain_cases. cbv zeta.
          rewrite replace_bullet_strip.
          rewrite sanitize_response_fixed
            by (apply replace_bullet_printable, strip_forallb, Ht).
          rewrite replace_bullet_strip, strip_idempotent.
          assert (is_empty (replace BULLET HYPHEN (strip t)) = false) as E1.
          { apply is_empty_false. intros H. apply replace_bullet_nil in H.
            apply is_empty_false in Es. contradiction. }
          assert (contains [REPLACEMENT] (replace BULLET HYPHEN (strip t))
                  = false) as E2.
          { apply contains_single_false, replace_bullet_no_new;
              [discriminate|]. apply strip_not_In, contains_single_false, Ec. }
          rewrite E1, E2. simpl. apply replace_bullet_idempotent. }
        rewrite E. split.
        -- intros H. right. apply strip_same_length.
           apply (f_equal (@List.length N)) in H.
           unfold replace in H. rewrite !length_map in H. exact H.
        -- intros [H|H]; [discriminate | rewrite H; reflexivity].
Qed.


(** C7 (amended).  [sanitize_response] is idempotent.  The whole chain of
    the drafting step (strip, remove the non-printable characters, check,
    drop the blank lines, replace the bullets) gives the same text when
    applied to its own result, provided the stripped and sanitized text
    has no whitespace left at either end or holds a replacement
    character; this covers every text of printable characters. *)
Theorem sanitization_idempotence (R : Runtime) (U : UnicodeFacts R) (x : str) :
  let t := Maincode.sanitize_response (strip x) in
  Maincode.sanitize_response (Maincode.sanitize_response x)
  = Maincode.sanitize_response x
  /\ (contains [REPLACEMENT] t = true \/ strip t = t ->
      sanitization_chain (sanitization_chain x) = sanitization_chain x)
  /\ (forallb isprintable x = true ->
      sanitization_chain (sanitization_chain x) = sanitization_chain x).
Proof.
  intros t. split; [apply sanitize_response_idempotent|]. split.
  - apply (sanitization_chain_idempotent_iff R U x).
  - intros Hx. apply (sanitization_chain_idempotent_iff R U x). right.
    rewrite (sanitize_response_fixed (strip x)) by (apply strip_forallb, Hx).
    apply strip_idempotent.
Qed.

(** The chain is idempotent on a text with leading blanks. *)
Lemma sanitization_idempotence_witness :
  sanitization_chain (R:=Sample.runtime)
    (sanitization_chain (R:=Sample.runtime) (text "  - Rest and fluids  "))
  = sanitization_chain (R:=Sample.runtime) (text "  - Rest and fluids  ").
Proof.
  apply (proj1 (proj2 (sanitization_idempotence Sample.runtime
                         sample_unicode_facts (text "  - Rest and fluids  ")))).
  right. reflexivity.
Defined.

(** C7 (as stated) fails: sanitizing ["\x00 a"] gives [" a"], and
    sanitizing that gives ["a"]. *)
Lemma sanitization_chain_not_idempotent :
  sanitization_chain (R:=Sample.runtime) [0; SPACE; 97]%N = [SPACE; 97]%N
  /\ sanitization_chain (R:=Sample.runtime) [SPACE; 97]%N = [97]%N
  /\ sanitization_chain (R:=Sample.runtime)
       (sanitization_chain (R:=Sample.runtime) [0; SPACE; 97]%N)
     <> sanitization_chain (R:=Sample.runtime) [0; SPACE; 97]%N.
Proof.
  split; [reflexivity|]. split; [reflexivity|].
  apply (chain_twice_differs Sample.runtime sample_unicode_facts).
Qed.

Lemma not_In_LF_ascii (s : str) : ascii_printable s = true -> ~ In LF s.
Proof.
  unfold ascii_printable. rewrite forallb_forall. intros H Hin.
  specialize (H LF Hin). discriminate.
Qed.

Lemma checked_text_printable (R : Runtime) (U : UnicodeFacts R)
  (response : value) :
  forallb isprintable (Maincode.checked_text response) = true.
Proof.
  assert (forallb isprintable CORRUPTED = true) as HC
    by (apply ascii_printable_isprintable; reflexivity).
  assert (forallb isprintable NO_ANSWER = true) as HN
    by (apply ascii_printable_isprintable; reflexivity).
  unfold Maincode.checked_text.
  destruct response; try exact HN.
  destruct (is_empty _ || contains _ _); [exact HC|].
  apply sanitize_response_printable.
Qed.

Lemma clean_answer_no_LF (R : Runtime) (U : UnicodeFacts R)
  (response : value) :
  ~ In LF (Maincode.clean_answer response).
Proof.
  unfold Maincode.clean_answer. cbv zeta.
  pose proof (printable_no_LF _ (checked_text_printable R U response)) as H.
  apply replace_bullet_no_new; [discriminate|].
  rewrite remove_empty_lines_one_line by exact H.
  destruct (is_empty _); [intros [] | exact H].
Qed.

(** C9 (amended).  In [maincode.py], [sanitize_response] keeps exactly the
    printable characters, so it removes every newline; for every state
    and every outcome of the generation call the stored [answer_draft] is
    a text without a newline; and the removal of the blank lines leaves
    the checked text unchanged whenever that text holds a character that
    is not whitespace. *)
Theorem maincode_answer_single_line (R : Runtime) (U : UnicodeFacts R)
  (W : World) (state : ResearchState) :
  (forall x c, In c (Maincode.sanitize_response x)
               <-> In c x /\ isprintable c = true)
  /\ (forall x, ~ In LF (Maincode.sanitize_response x))
  /\ (exists s, answer_draft (Maincode.answer_drafting_agent state) = VStr s
                /\ ~ In LF s)
  /\ (forall response,
         strip (Maincode.checked_text response) <> [] ->
         Maincode.remove_empty_lines (Maincode.checked_text response)
         = Maincode.checked_text response).
Proof.
  split; [|split; [|split]].
  - intros x c. apply filter_In.
  - intros x. apply printable_no_LF, sanitize_response_printable.
  - unfold Maincode.answer_drafting_agent, try_except, bind.
    destruct (hf_client_text_generation _) as [response|e]; simpl.
    + eexists. split; [reflexivity|]. apply (clean_answer_no_LF R U).
    + eexists. split; [reflexivity|]. apply not_In_LF_ascii. reflexivity.
  - intros response H.
    rewrite remove_empty_lines_one_line
      by (apply printable_no_LF, (checked_text_printable R U)).
    apply is_empty_false in H. rewrite H. reflexivity.
Qed.

(** On a healthy run the stored answer has no newline and the removal of
    the blank lines changes nothing. *)
Lemma maincode_answer_single_line_witness :
  (exists s,
      answer_draft (Maincode.answer_drafting_agent
                      (R:=Sample.runtime) (W:=Sample.healthy)
                      Sample.initial_state) = VStr s
      /\ ~ In LF s)
  /\ Maincode.remove_empty_lines
       (Maincode.checked_text (R:=Sample.runtime) (VStr (text " a ")))
     = Maincode.checked_text (R:=Sample.runtime) (VStr (text " a ")).
Proof.
  pose proof (maincode_answer_single_line Sample.runtime sample_unicode_facts
                Sample.healthy Sample.initial_state) as (_ & _ & H3 & H4).
  split; [exact H3|]. apply H4. vm_compute. discriminate.
Defined.

(** C9 (as stated) fails: when the model emits a space between two NUL
    characters, the checked text is one space and the removal of the
    blank lines turns it into the empty text. *)
Lemma blank_line_removal_not_vacuous :
  Maincode.checked_text (R:=Sample.runtime) (VStr [0; SPACE; 0]%N) = [SPACE]
  /\ Maincode.remove_empty_lines [SPACE] = []
  /\ Maincode.remove_empty_lines
       (Maincode.checked_text (R:=Sample.runtime) (VStr [0; SPACE; 0]%N))
     <> Maincode.checked_text (R:=Sample.runtime) (VStr [0; SPACE; 0]%N).
Proof.
  split; [reflexivity|]. split; [reflexivity|]. vm_compute. discriminate.
Qed.

(** Whatever the runtime, [maincode.py] turns a space between two NUL
    characters into the empty text. *)
Lemma clean_answer_blank (R : Runtime) (U : UnicodeFacts R) :
  Maincode.clean_answer (VStr [0; SPACE; 0]%N) = [].
Proof.
  unfold Maincode.clean_answer.
  rewrite (checked_text_ascii R U [0; SPACE; 0]%N) by reflexivity.
  reflexivity.
Qed.

(** C10, at the failing input.  In [maincode.py], when the model emits a
    space between two NUL characters, the drafting step stores the empty
    text as [answer_draft], and the runner falls back on its own
    sentinel. *)
Theorem maincode_draft_empty_answer :
  answer_draft (Maincode.answer_drafting_agent
                  (R:=Sample.runtime) (W:=Sample.blank_generation)
                  Sample.initial_state) = VStr []
  /\ Maincode.run_research_system
       (R:=Sample.runtime) (W:=Sample.blank_generation) Sample.a_query
     = Returns (VStr NO_ANSWER).
Proof. split; reflexivity. Qed.

(* ===================================================================== *)
(** ** The research step (claims C3, C5, C6) *)
(* ===================================================================== *)

Lemma newmain_research_agent_same (W : World) :
  Newmain.research_agent = Maincode.research_agent.
Proof. reflexivity. Qed.

(** The research step, with the extraction of the contents named. *)
Lemma maincode_research_agent_unfold (W : World) (state : ResearchState) :
  Maincode.research_agent state =
  try_except
    (response <- client_search (query state) ;;
     research_data <- contents_of response ;;
     no_useful <-
       match research_data with
       | [] => Returns true
       | _ :: _ =>
           all (fun item => s <- strip_method item ;; Returns (is_empty s))
               research_data
       end ;;
     Returns (mkResearchState (query state)
                (VList (if no_useful then [VStr NO_RESULTS] else research_data))
                (VStr [])))
    (fun _ =>
       mkResearchState (query state) (VList [VStr SEARCH_ERROR]) (VStr [])).
Proof.
  unfold Maincode.research_agent, contents_of, bind.
  destruct (client_search (query state)) as [response|]; [|reflexivity].
  destruct (get response _ _) as [results|]; [|reflexivity].
  destruct (iter results) as [items|]; [|reflexivity].
  destruct (comprehension _ items); reflexivity.
Qed.

Lemma accuracy_research_agent_unfold (W : World) (state : ResearchState) :
  Accuracy.research_agent state =
  try_except
    (response <- client_search (query state) ;;
     research_data <- contents_of response ;;
     filtered_data <- comprehension_if Accuracy.good_quality research_data ;;
     Returns (mkResearchState (query state)
                (VList (match filtered_data with
                        | [] => [VStr NO_RESULTS]
                        | _ :: _ => filtered_data
                        end))
                (VStr [])))
    (fun _ =>
       mkResearchState (query state) (VList [VStr SEARCH_ERROR]) (VStr [])).
Proof.
  unfold Accuracy.research_agent, contents_of, bind.
  destruct (client_search (query state)) as [response|]; [|reflexivity].
  destruct (get response _ _) as [results|]; [|reflexivity].
  destruct (iter results) as [items|]; [|reflexivity].
  destruct (comprehension _ items); reflexivity.
Qed.

Lemma all_blank (items : list value) :
  Forall blank items ->
  all (fun item => s <- strip_method item ;; Returns (is_empty s)) items
  = Returns true.
Proof.
  induction 1 as [|item items [s [-> Hs]] _ IH]; simpl; [reflexivity|].
  rewrite Hs. simpl. exact IH.
Qed.

Lemma none_good_quality (items : list value) :
  Forall (fun res => Accuracy.good_quality res = Returns false) items ->
  comprehension_if Accuracy.good_quality items = Returns [].
Proof.
  induction 1 as [|item items Hq _ IH]; simpl; [reflexivity|].
  rewrite Hq, IH. reflexivity.
Qed.

(** A response without a [results] field, or with an empty one, has no
    contents. *)
Lemma contents_of_missing_results (d : list (str * value)) :
  dict_lookup d (text "results") = None -> contents_of (VDict d) = Returns [].
Proof. intros H. unfold contents_of. simpl. rewrite H. reflexivity. Qed.

Lemma contents_of_zero_results (d : list (str * value)) :
  dict_lookup d (text "results") = Some (VList []) ->
  contents_of (VDict d) = Returns [].
Proof. intros H. unfold contents_of. simpl. rewrite H. reflexivity. Qed.

(** A result without a [content] field counts as the text
    ["No content available."]. *)
Lemma contents_of_missing_content (d : list (str * value)) :
  dict_lookup d (text "results") = Some (VList [VDict []]) ->
  contents_of (VDict d) = Returns [VStr NO_CONTENT].
Proof. intros H. unfold contents_of. simpl. rewrite H. reflexivity. Qed.

(** C6.  Each step returns a state in which the fields it does not own
    are those of its input: the research step keeps [query] and sets
    [answer_draft] to the empty text; the drafting step keeps [query] and
    [research_data]; so [query] is the same before and after both steps.
    This holds in the three scripts, whatever the collaborators answer. *)
Theorem steps_carry_fields_forward (R : Runtime) (W : World)
  (state : ResearchState) :
  (query (Maincode.research_agent state) = query state
   /\ answer_draft (Maincode.research_agent state) = VStr [])
  /\ (query (Newmain.research_agent state) = query state
      /\ answer_draft (Newmain.research_agent state) = VStr [])
  /\ (query (Accuracy.research_agent state) = query state
      /\ answer_draft (Accuracy.research_agent state) = VStr [])
  /\ (query (Maincode.answer_drafting_agent state) = query state
      /\ research_data (Maincode.answer_drafting_agent state)
         = research_data state)
  /\ (query (Newmain.answer_drafting_agent state) = query state
      /\ research_data (Newmain.answer_drafting_agent state)
         = research_data state)
  /\ (query (Accuracy.answer_drafting_agent state) = query state
      /\ research_data (Accuracy.answer_drafting_agent state)
         = research_data state)
  /\ query (Maincode.answer_drafting_agent (Maincode.research_agent state))
     = query state
  /\ query (Newmain.answer_drafting_agent (Newmain.research_agent state))
     = query state
  /\ query (Accuracy.answer_drafting_agent (Accuracy.research_agent state))
     = query state.
Proof.
  assert (forall st, query (Maincode.research_agent st) = query st
                     /\ answer_draft (Maincode.research_agent st) = VStr [])
    as HM.
  { intros st. rewrite maincode_research_agent_unfold.
    unfold try_except, bind.
    destruct (client_search (query st)) as [response|]; [|split; reflexivity].
    destruct (contents_of response) as [[|item items]|];
      [split; reflexivity | | split; reflexivity].
    destruct (all _ _) as [[]|]; split; reflexivity. }
  assert (forall st, query (Accuracy.research_agent st) = query st
                     /\ answer_draft (Accuracy.research_agent st) = VStr [])
    as HA.
  { intros st. rewrite accuracy_research_agent_unfold.
    unfold try_except, bind.
    destruct (client_search (query st)) as [response|]; [|split; reflexivity].
    destruct (contents_of response) as [items|]; [|split; reflexivity].
    destruct (comprehension_if _ _) as [[|kept rest]|]; split; reflexivity. }
  assert (forall st, query (Maincode.answer_drafting_agent st) = query st
                     /\ research_data (Maincode.answer_drafting_agent st)
                        = research_data st) as DM.
  { intros st. unfold Maincode.answer_drafting_agent, try_except, bind.
    destruct (hf_client_text_generation _); split; reflexivity. }
  assert (forall st, query (Newmain.answer_drafting_agent st) = query st
                     /\ research_data (Newmain.answer_drafting_agent st)
                        = research_data st) as DN.
  { intros st. unfold Newmain.answer_drafting_agent, try_except, bind.
    destruct (hf_client_text_generation _) as [response|];
      [|split; reflexivity].
    destruct (Newmain.checked_answer response); split; reflexivity. }
  assert (forall st, query (Accuracy.answer_drafting_agent st) = query st
                     /\ research_data (Accuracy.answer_drafting_agent st)
                        = research_data st) as DA.
  { intros st. unfold Accuracy.answer_drafting_agent, try_except, bind.
    destruct (hf_client_text_generation _) as [response|];
      [|split; reflexivity].
    destruct (Accuracy.checked_answer response); split; reflexivity. }
  split; [apply HM|]. split; [apply HM|]. split; [apply HA|].
  split; [apply DM|]. split; [apply DN|]. split; [apply DA|].
  split; [|split].
  - rewrite (proj1 (DM _)). apply HM.
  - rewrite (proj1 (DN _)). apply HM.
  - rewrite (proj1 (DA _)). apply HA.
Qed.

(** C3.  When the search call raises, the research step of each script
    returns the state with the query carried forward, the single item
    ["Error fetching results"] as research data and an empty draft; the
    step is a total function of the state, so no exception leaves it;
    and the drafting step then calls the generation client with the
    prompt built from that item and stores an answer next to it. *)
Theorem search_failure_contained (R : Runtime) (W : World)
  (state : ResearchState) (e : exn) :
  client_search (query state) = Raises e ->
  let failed :=
    mkResearchState (query state) (VList [VStr SEARCH_ERROR]) (VStr []) in
  (Maincode.research_agent state = failed
   /\ Newmain.research_agent state = failed
   /\ Accuracy.research_agent state = failed)
  /\ (Maincode.answer_drafting_agent (Maincode.research_agent state)
      = mkResearchState (query state) (VList [VStr SEARCH_ERROR])
          (VStr match hf_client_text_generation
                        (Maincode.prompt (VList [VStr SEARCH_ERROR])) with
                | Returns response => Maincode.clean_answer response
                | Raises _ => DRAFT_ERROR
                end))
  /\ (Newmain.answer_drafting_agent (Newmain.research_agent state)
      = mkResearchState (query state) (VList [VStr SEARCH_ERROR])
          (VStr match hf_client_text_generation
                        (Newmain.prompt (VList [VStr SEARCH_ERROR])) with
                | Returns response =>
                    try_except (Newmain.checked_answer response)
                               (fun _ => DRAFT_ERROR)
                | Raises _ => DRAFT_ERROR
                end))
  /\ (Accuracy.answer_drafting_agent (Accuracy.research_agent state)
      = mkResearchState (query state) (VList [VStr SEARCH_ERROR])
          (VStr match hf_client_text_generation
                        (Accuracy.prompt (VList [VStr SEARCH_ERROR])) with
                | Returns response =>
                    try_except (Accuracy.checked_answer response)
                               (fun _ => DRAFT_ERROR)
                | Raises _ => DRAFT_ERROR
                end)).
Proof.
  intros He failed.
  assert (Maincode.research_agent state = failed) as HM.
  { unfold Maincode.research_agent. rewrite He. reflexivity. }
  assert (Accuracy.research_agent state = failed) as HA.
  { unfold Accuracy.research_agent. rewrite He. reflexivity. }
  split; [split; [exact HM | split; [exact HM | exact HA]]|].
  split; [|split].
  - rewrite HM. unfold Maincode.answer_drafting_agent, try_except, bind, failed.
    cbn [query research_data].
    destruct (hf_client_text_generation _); reflexivity.
  - change (@Newmain.research_agent W) with (@Maincode.research_agent W).
    rewrite HM.
    unfold Newmain.answer_drafting_agent, try_except, bind, failed.
    cbn [query research_data].
    destruct (hf_client_text_generation _) as [response|]; [|reflexivity].
    destruct (Newmain.checked_answer response); reflexivity.
  - rewrite HA.
    unfold Accuracy.answer_drafting_agent, try_except, bind, failed.
    cbn [query research_data].
    destruct (hf_client_text_generation _) as [response|]; [|reflexivity].
    destruct (Accuracy.checked_answer response); reflexivity.
Qed.

(** With the search provider down, the research data is the error item
    and the draft is what the model made of it. *)
Lemma search_failure_contained_witness :
  Maincode.research_agent (W:=Sample.search_down) Sample.initial_state
  = mkResearchState (VStr Sample.a_query) (VList [VStr SEARCH_ERROR]) (VStr [])
  /\ Maincode.answer_drafting_agent (R:=Sample.runtime) (W:=Sample.search_down)
       (Maincode.research_agent (W:=Sample.search_down) Sample.initial_state)
     = mkResearchState (VStr Sample.a_query) (VList [VStr SEARCH_ERROR])
         (VStr (text "No data is available.")).
Proof.
  pose proof (search_failure_contained Sample.runtime Sample.search_down
                Sample.initial_state
                (ProviderError (text "503 Service Unavailable")) eq_refl)
    as ((HM & _ & _) & HD & _).
  split; [exact HM | exact HD].
Defined.

(** C5.  Whatever the search call does, the research step of each script
    returns a list with at least one item as research data.  When the
    call raises, or the response cannot be read, the list is exactly
    ["Error fetching results"].  When the contents are read and none is
    usable (all blank in [maincode.py] and [newmain.py], none passing the
    quality filter in [accuracy.py], which covers a response with no
    result and one with no [results] field), the list is exactly
    ["No relevant search results."]. *)
Theorem research_data_never_empty (W : World) (state : ResearchState) :
  ((exists item rest,
       research_data (Maincode.research_agent state) = VList (item :: rest))
   /\ (exists item rest,
          research_data (Newmain.research_agent state) = VList (item :: rest))
   /\ (exists item rest,
          research_data (Accuracy.research_agent state) = VList (item :: rest)))
  /\ (forall e,
         client_search (query state) = Raises e
         \/ (exists response, client_search (query state) = Returns response
                              /\ contents_of response = Raises e) ->
         research_data (Maincode.research_agent state)
         = VList [VStr SEARCH_ERROR]
         /\ research_data (Newmain.research_agent state)
            = VList [VStr SEARCH_ERROR]
         /\ research_data (Accuracy.research_agent state)
            = VList [VStr SEARCH_ERROR])
  /\ (forall response contents,
         client_search (query state) = Returns response ->
         contents_of response = Returns contents ->
         (Forall blank contents ->
          research_data (Maincode.research_agent state)
          = VList [VStr NO_RESULTS]
          /\ research_data (Newmain.research_agent state)
             = VList [VStr NO_RESULTS])
         /\ (Forall (fun res => Accuracy.good_quality res = Returns false)
                    contents ->
             research_data (Accuracy.research_agent state)
             = VList [VStr NO_RESULTS])).
Proof.
  split; [|split].
  - assert (exists item rest,
               research_data (Maincode.research_agent state)
               = VList (item :: rest)) as HM.
    { rewrite maincode_research_agent_unfold. unfold try_except, bind.
      destruct (client_search (query state)) as [response|];
        [|eexists; eexists; reflexivity].
      destruct (contents_of response) as [[|item items]|];
        [eexists; eexists; reflexivity | | eexists; eexists; reflexivity].
      destruct (all _ _) as [[]|]; eexists; eexists; reflexivity. }
    split; [exact HM|]. split; [exact HM|].
    rewrite accuracy_research_agent_unfold. unfold try_except, bind.
    destruct (client_search (query state)) as [response|];
      [|eexists; eexists; reflexivity].
    destruct (contents_of response) as [items|];
      [|eexists; eexists; reflexivity].
    destruct (comprehension_if _ _) as [[|kept rest]|];
      eexists; eexists; reflexivity.
  - intros e H.
    change (@Newmain.research_agent W) with (@Maincode.research_agent W).
    rewrite maincode_research_agent_unfold, accuracy_research_agent_unfold.
    destruct H as [H | [response [H1 H2]]].
    + rewrite H. repeat split.
    + rewrite H1. unfold bind. rewrite H2. repeat split.
  - intros response contents H1 H2.
    change (@Newmain.research_agent W) with (@Maincode.research_agent W).
    rewrite maincode_research_agent_unfold, accuracy_research_agent_unfold.
    rewrite H1. unfold bind. rewrite H2. split.
    + intros HB. destruct contents as [|item items]; [split; reflexivity|].
      pose proof (all_blank _ HB) as E. unfold bind in E.
      rewrite E. split; reflexivity.
    + intros HQ. rewrite (none_good_quality _ HQ). reflexivity.
Qed.

(** The three placeholders on sample responses: provider down, blank
    results, no [results] field, and results too short for the quality
    filter. *)
Lemma research_data_never_empty_witness :
  research_data (Maincode.research_agent (W:=Sample.search_down)
                   Sample.initial_state) = VList [VStr SEARCH_ERROR]
  /\ research_data (Newmain.research_agent (W:=Sample.blank_results)
                      Sample.initial_state) = VList [VStr NO_RESULTS]
  /\ research_data (Maincode.research_agent (W:=Sample.no_results_field)
                      Sample.initial_state) = VList [VStr NO_RESULTS]
  /\ research_data (Accuracy.research_agent (W:=Sample.short_results)
                      Sample.initial_state) = VList [VStr NO_RESULTS].
Proof.
  split; [|split; [|split]].
  - apply (proj1 (proj2 (research_data_never_empty Sample.search_down
                           Sample.initial_state))
             (ProviderError (text "503 Service Unavailable"))).
    left. reflexivity.
  - apply (proj1 (proj2 (proj2 (research_data_never_empty Sample.blank_results
                                  Sample.initial_state))
                    _ [VStr (text "   "); VStr []] eq_refl eq_refl)).
    repeat constructor; eexists; split; reflexivity.
  - apply (proj1 (proj2 (proj2 (research_data_never_empty
                                  Sample.no_results_field
                                  Sample.initial_state))
                    _ [] eq_refl eq_refl)).
    constructor.
  - apply (proj2 (proj2 (proj2 (research_data_never_empty Sample.short_results
                                  Sample.initial_state))
                    _ [VStr (text "Rest helps."); VStr (text "Drink fluids.")]
                    eq_refl eq_refl)).
    repeat constructor.
Defined.

(* ===================================================================== *)
(** ** The runner (claims C1, C4, C8) *)
(* ===================================================================== *)

Lemma from_kwargs_state_as_dict (s : ResearchState) :
  ResearchState_from_kwargs
    [ (text "query", query s);
      (text "research_data", research_data s);
      (text "answer_draft", answer_draft s) ]
  = Returns s.
Proof. destruct s. reflexivity. Qed.

(** The runner reads the same answer from both forms the engine may
    return. *)
Lemma maincode_read_invoke (W : World)
  (research draft : ResearchState -> ResearchState) (state : ResearchState) :
  Maincode.read_final_state (executor_invoke research draft state)
  = Maincode.read_final_state (OState (draft (research state))).
Proof.
  unfold executor_invoke. destruct executor_shape; [reflexivity|].
  unfold Maincode.read_final_state, state_as_dict, bind.
  rewrite from_kwargs_state_as_dict. reflexivity.
Qed.

Lemma newmain_read_invoke (W : World)
  (research draft : ResearchState -> ResearchState) (state : ResearchState) :
  Newmain.read_final_state (executor_invoke research draft state)
  = Newmain.read_final_state (OState (draft (research state))).
Proof.
  unfold executor_invoke. destruct executor_shape; [reflexivity|].
  unfold Newmain.read_final_state, state_as_dict, bind.
  rewrite from_kwargs_state_as_dict. reflexivity.
Qed.

Lemma accuracy_read_invoke (W : World)
  (research draft : ResearchState -> ResearchState) (state : ResearchState) :
  Accuracy.read_final_state (executor_invoke research draft state)
  = Accuracy.read_final_state (OState (draft (research state))).
Proof.
  unfold executor_invoke. destruct executor_shape; [reflexivity|].
  unfold Accuracy.read_final_state, state_as_dict, bind.
  rewrite from_kwargs_state_as_dict. reflexivity.
Qed.

(** The answer the runner reads from a text: the text, or the fallback
    sentinel when the text is empty. *)
Lemma answer_or_fallback (s : str) :
  exists a,
    (if truthy (VStr s) then VStr s else VStr NO_ANSWER) = VStr a /\ a <> [].
Proof.
  destruct s as [|c s].
  - exists NO_ANSWER. split; [reflexivity | discriminate].
  - exists (c :: s). split; [reflexivity | discriminate].
Qed.

Lemma maincode_draft_is_text (R : Runtime) (W : World) (state : ResearchState) :
  exists s, answer_draft (Maincode.answer_drafting_agent state) = VStr s.
Proof.
  unfold Maincode.answer_drafting_agent, try_except, bind.
  destruct (hf_client_text_generation _); eexists; reflexivity.
Qed.

(** In [newmain.py] and [accuracy.py] the checked answer is never the
    empty text. *)
Lemma newmain_checked_answer_nonempty (response : value) (a : str) :
  Newmain.checked_answer response = Returns a -> a <> [].
Proof.
  unfold Newmain.checked_answer, bind.
  destruct (match response with
            | VStr s => Returns (strip s)
            | VDict _ =>
                match get response (text "generated_text") (VStr []) with
                | Returns generated => strip_method generated
                | Raises e => Raises e
                end
            | _ => Returns NO_ANSWER
            end) as [answer_text|]; [|discriminate].
  assert (CORRUPTED <> []) as HC by (vm_compute; discriminate).
  set (garbled := existsb (fun char => contains char answer_text) GARBAGE).
  intros H. inversion H as [Ha]. clear H Ha.
  destruct (is_empty answer_text) eqn:E; [exact HC|].
  destruct garbled; [exact HC|]. apply is_empty_false, E.
Qed.

Lemma accuracy_checked_answer_same :
  Accuracy.checked_answer = Newmain.checked_answer.
Proof. reflexivity. Qed.

Lemma newmain_draft_nonempty (R : Runtime) (W : World) (state : ResearchState) :
  nonempty_text (answer_draft (Newmain.answer_drafting_agent state)).
Proof.
  unfold Newmain.answer_drafting_agent, try_except, bind.
  destruct (hf_client_text_generation _) as [response|];
    [|exists DRAFT_ERROR; split; [reflexivity | discriminate]].
  destruct (Newmain.checked_answer response) as [a|] eqn:E;
    [|exists DRAFT_ERROR; split; [reflexivity | discriminate]].
  exists a. split; [reflexivity|].
  exact (newmain_checked_answer_nonempty response a E).
Qed.

Lemma accuracy_draft_nonempty (R : Runtime) (W : World) (state : ResearchState) :
  nonempty_text (answer_draft (Accuracy.answer_drafting_agent state)).
Proof.
  unfold Accuracy.answer_drafting_agent, try_except, bind.
  destruct (hf_client_text_generation _) as [response|];
    [|exists DRAFT_ERROR; split; [reflexivity | discriminate]].
  destruct (Accuracy.checked_answer response) as [a|] eqn:E;
    [|exists DRAFT_ERROR; split; [reflexivity | discriminate]].
  exists a. split; [reflexivity|].
  exact (newmain_checked_answer_nonempty response a E).
Qed.

(** C1.  For every query, every runtime and every world (whatever the
    search and generation calls do, and in whichever of its two forms the
    engine returns the final state), [run_research_system] of each of
    the three scripts returns a text that is not empty. *)
Theorem run_research_system_never_empty (R : Runtime) (W : World)
  (user_query : str) :
  (exists a, Maincode.run_research_system user_query = Returns (VStr a)
             /\ a <> [])
  /\ (exists a, Newmain.run_research_system user_query = Returns (VStr a)
                /\ a <> [])
  /\ (exists a, Accuracy.run_research_system user_query = Returns (VStr a)
                /\ a <> []).
Proof.
  split; [|split].
  - unfold Maincode.run_research_system. cbv zeta.
    rewrite maincode_read_invoke.
    destruct (maincode_draft_is_text R W
                (Maincode.research_agent
                   (mkResearchState (VStr user_query) (VList []) (VStr []))))
      as [s Hs].
    unfold Maincode.read_final_state, bind. rewrite Hs.
    destruct (answer_or_fallback s) as [a [Ha Hne]].
    exists a. rewrite Ha. split; [reflexivity | exact Hne].
  - unfold Newmain.run_research_system. cbv zeta.
    rewrite newmain_read_invoke.
    destruct (newmain_draft_nonempty R W
                (Newmain.research_agent
                   (mkResearchState (VStr user_query) (VList []) (VStr []))))
      as [s [Hs Hne]].
    unfold Newmain.read_final_state, bind. rewrite Hs.
    exists s. split; [|exact Hne].
    destruct s; [contradiction | reflexivity].
  - unfold Accuracy.run_research_system. cbv zeta.
    rewrite accuracy_read_invoke.
    destruct (accuracy_draft_nonempty R W
                (Accuracy.research_agent
                   (mkResearchState (VStr user_query) (VList []) (VStr []))))
      as [s [Hs Hne]].
    unfold Accuracy.read_final_state, bind. rewrite Hs.
    exists s. split; [reflexivity | exact Hne].
Qed.

(** C4.  When the generation call raises, the drafting step of each
    script returns the state with [query] and [research_data] carried
    forward and ["Error fetching response."] as [answer_draft]; no
    exception leaves the step, and [run_research_system] returns that
    sentinel. *)
Theorem generation_failure_contained (R : Runtime) (W : World)
  (state : ResearchState) (user_query : str) :
  let failed :=
    mkResearchState (query state) (research_data state) (VStr DRAFT_ERROR) in
  let initial := mkResearchState (VStr user_query) (VList []) (VStr []) in
  ((exists e, hf_client_text_generation
                (Maincode.prompt (research_data state)) = Raises e) ->
   Maincode.answer_drafting_agent state = failed)
  /\ ((exists e, hf_client_text_generation
                   (Newmain.prompt (research_data state)) = Raises e) ->
      Newmain.answer_drafting_agent state = failed)
  /\ ((exists e, hf_client_text_generation
                   (Accuracy.prompt (research_data state)) = Raises e) ->
      Accuracy.answer_drafting_agent state = failed)
  /\ ((exists e, hf_client_text_generation
                   (Maincode.prompt
                      (research_data (Maincode.research_agent initial)))
                 = Raises e) ->
      Maincode.run_research_system user_query = Returns (VStr DRAFT_ERROR))
  /\ ((exists e, hf_client_text_generation
                   (Newmain.prompt
                      (research_data (Newmain.research_agent initial)))
                 = Raises e) ->
      Newmain.run_research_system user_query = Returns (VStr DRAFT_ERROR))
  /\ ((exists e, hf_client_text_generation
                   (Accuracy.prompt
                      (research_data (Accuracy.research_agent initial)))
                 = Raises e) ->
      Accuracy.run_research_system user_query = Returns (VStr DRAFT_ERROR)).
Proof.
  intros failed initial. subst failed initial.
  assert (forall st,
             (exists e, hf_client_text_generation
                          (Maincode.prompt (research_data st)) = Raises e) ->
             Maincode.answer_drafting_agent st
             = mkResearchState (query st) (research_data st) (VStr DRAFT_ERROR))
    as HM.
  { intros st [e He]. unfold Maincode.answer_drafting_agent.
    rewrite He. reflexivity. }
  assert (forall st,
             (exists e, hf_client_text_generation
                          (Newmain.prompt (research_data st)) = Raises e) ->
             Newmain.answer_drafting_agent st
             = mkResearchState (query st) (research_data st) (VStr DRAFT_ERROR))
    as HN.
  { intros st [e He]. unfold Newmain.answer_drafting_agent.
    rewrite He. reflexivity. }
  assert (forall st,
             (exists e, hf_client_text_generation
                          (Accuracy.prompt (research_data st)) = Raises e) ->
             Accuracy.answer_drafting_agent st
             = mkResearchState (query st) (research_data st) (VStr DRAFT_ERROR))
    as HA.
  { intros st [e He]. unfold Accuracy.answer_drafting_agent.
    rewrite He. reflexivity. }
  split; [apply HM|]. split; [apply HN|]. split; [apply HA|].
  split; [|split]; intros H.
  - unfold Maincode.run_research_system. cbv zeta.
    rewrite maincode_read_invoke, (HM _ H). reflexivity.
  - unfold Newmain.run_research_system. cbv zeta.
    rewrite newmain_read_invoke, (HN _ H). reflexivity.
  - unfold Accuracy.run_research_system. cbv zeta.
    rewrite accuracy_read_invoke, (HA _ H). reflexivity.
Qed.

(** With the inference endpoint down, the draft and the final answer are
    the sentinel. *)
Lemma generation_failure_contained_witness :
  Maincode.answer_drafting_agent (R:=Sample.runtime)
    (W:=Sample.generation_down) Sample.initial_state
  = mkResearchState (VStr Sample.a_query) (VList []) (VStr DRAFT_ERROR)
  /\ Accuracy.run_research_system (R:=Sample.runtime)
       (W:=Sample.generation_down) Sample.a_query
     = Returns (VStr DRAFT_ERROR).
Proof.
  pose proof (generation_failure_contained Sample.runtime
                Sample.generation_down Sample.initial_state Sample.a_query)
    as (HM & _ & _ & _ & _ & HA).
  split.
  - apply HM. exists (ProviderError (text "429 Too Many Requests")).
    reflexivity.
  - apply HA. exists (ProviderError (text "429 Too Many Requests")).
    reflexivity.
Defined.



(** For every query the runner reads the state the two steps produce. *)
Lemma run_reads_final_state (R : Runtime) (W : World) (user_query : str) :
  let initial := mkResearchState (VStr user_query) (VList []) (VStr []) in
  Maincode.run_research_system user_query
  = Maincode.read_final_state
      (OState (Maincode.answer_drafting_agent (Maincode.research_agent initial)))
  /\ Newmain.run_research_system user_query
     = Newmain.read_final_state
         (OState (Newmain.answer_drafting_agent (Newmain.research_agent initial)))
  /\ Accuracy.run_research_system user_query
     = Accuracy.read_final_state
         (OState (Accuracy.answer_drafting_agent
                    (Accuracy.research_agent initial))).
Proof.
  cbv zeta. split; [|split].
  - apply maincode_read_invoke.
  - apply newmain_read_invoke.
  - apply accuracy_read_invoke.
Qed.

(* ===================================================================== *)
(** ** The corruption check (claim C2) *)
(* ===================================================================== *)

Lemma strip_keeps_nonspace (c : N) (s : str) :
  isspace c = false -> In c s -> In c (strip s).
Proof.
  intros Hc Hin. apply in_split in Hin. destruct Hin as [a [b ->]].
  unfold strip. rewrite lstrip_app_nonspace by exact Hc.
  rewrite rstrip_app_nonspace by exact Hc.
  apply in_or_app. right. left. reflexivity.
Qed.

Lemma garbage_strip (p s : str) :
  In p GARBAGE -> contains p s = true -> contains p (strip s) = true.
Proof.
  intros Hp. unfold GARBAGE in Hp. simpl In in Hp.
  destruct Hp as [<- | [<- | [<- | []]]].
  - change (text "--c2-") with (45 :: [45; 99; 50] ++ [45])%N.
    apply contains_strip; reflexivity.
  - change (text "( ( (") with (40 :: [32; 40; 32] ++ [40])%N.
    apply contains_strip; reflexivity.
  - change (text "< ( (") with (60 :: [32; 40; 32] ++ [40])%N.
    apply contains_strip; reflexivity.
Qed.

Lemma garbage_detected (p s : str) :
  In p GARBAGE -> contains p s = true ->
  existsb (fun char => contains char s) GARBAGE = true.
Proof.
  intros Hp Hc. apply existsb_exists. exists p. split; assumption.
Qed.

(** C2 (amended).  In [newmain.py] and [accuracy.py], a generated text
    that is empty once stripped or holds ["--c2-"], ["( ( ("] or
    ["< ( ("] is discarded and [answer_draft] is the corruption
    sentinel.  In [maincode.py], a generated text that is empty once
    stripped or holds a replacement character is discarded in the same
    way. *)
Theorem corrupted_output_replaced (R : Runtime) (U : UnicodeFacts R)
  (W : World) (state : ResearchState) (generated : str) :
  (hf_client_text_generation (Newmain.prompt (research_data state))
   = Returns (VStr generated) ->
   strip generated = []
   \/ (exists p, In p GARBAGE /\ contains p generated = true) ->
   answer_draft (Newmain.answer_drafting_agent state) = VStr CORRUPTED)
  /\ (hf_client_text_generation (Accuracy.prompt (research_data state))
      = Returns (VStr generated) ->
      strip generated = []
      \/ (exists p, In p GARBAGE /\ contains p generated = true) ->
      answer_draft (Accuracy.answer_drafting_agent state) = VStr CORRUPTED)
  /\ (hf_client_text_generation (Maincode.prompt (research_data state))
      = Returns (VStr generated) ->
      strip generated = [] \/ In REPLACEMENT generated ->
      answer_draft (Maincode.answer_drafting_agent state) = VStr CORRUPTED).
Proof.
  assert (strip generated = []
          \/ (exists p, In p GARBAGE /\ contains p generated = true) ->
          Newmain.checked_answer (VStr generated) = Returns CORRUPTED) as HN.
  { intros H. unfold Newmain.checked_answer, bind.
    destruct H as [H | [p [Hp Hc]]].
    - rewrite H. reflexivity.
    - rewrite (garbage_detected p (strip generated) Hp
                 (garbage_strip p generated Hp Hc)).
      rewrite orb_true_r. reflexivity. }
  split; [|split]; intros Hg H.
  - unfold Newmain.answer_drafting_agent. rewrite Hg. unfold bind at 1.
    rewrite (HN H). reflexivity.
  - unfold Accuracy.answer_drafting_agent. rewrite Hg. unfold bind at 1.
    rewrite accuracy_checked_answer_same, (HN H). reflexivity.
  - unfold Maincode.answer_drafting_agent. rewrite Hg.
    unfold bind, try_except. cbn [answer_draft]. f_equal.
    assert (Maincode.checked_text (VStr generated) = CORRUPTED) as E.
    { unfold Maincode.checked_text. destruct H as [H | H].
      - rewrite H. reflexivity.
      - assert (contains [REPLACEMENT]
                  (Maincode.sanitize_response (strip generated)) = true) as C.
        { rewrite contains_single. apply existsb_exists.
          exists REPLACEMENT. split; [|apply N.eqb_refl].
          apply filter_In. split; [|apply isprintable_replacement].
          apply strip_keeps_nonspace; [reflexivity | exact H]. }
        rewrite C, orb_true_r. reflexivity. }
    unfold Maincode.clean_answer. rewrite E. reflexivity.
Qed.

(** A garbage pattern in [newmain.py] and a replacement character in
    [maincode.py] both give the corruption sentinel. *)
Lemma corrupted_output_replaced_witness :
  answer_draft (Newmain.answer_drafting_agent (R:=Sample.runtime)
                  (W:=Sample.garbage_generation) Sample.initial_state)
  = VStr CORRUPTED
  /\ answer_draft (Maincode.answer_drafting_agent (R:=Sample.runtime)
                     (W:=Sample.mojibake_generation) Sample.initial_state)
     = VStr CORRUPTED.
Proof.
  split.
  - apply (proj1 (corrupted_output_replaced Sample.runtime
                    sample_unicode_facts Sample.garbage_generation
                    Sample.initial_state (text "The cold --c2- is a virus")));
      [reflexivity|].
    right. exists (text "--c2-"). split; [left; reflexivity | reflexivity].
  - apply (proj2 (proj2 (corrupted_output_replaced Sample.runtime
                           sample_unicode_facts Sample.mojibake_generation
                           Sample.initial_state
                           (text "Rest " ++ [REPLACEMENT]))));
      [reflexivity|].
    right. apply in_or_app. right. left. reflexivity.
Defined.

(** C2 (as stated) fails.  [maincode.py] does not look for the garbage
    patterns: a generated text holding ["--c2-"] is stored as it is.
    [newmain.py] does not look for the replacement character: a
    generated text holding one is stored as it is. *)
Lemma garbage_kept_by_maincode :
  contains (text "--c2-") (text "The cold --c2- is a virus") = true
  /\ answer_draft (Maincode.answer_drafting_agent (R:=Sample.runtime)
                     (W:=Sample.garbage_generation) Sample.initial_state)
     = VStr (text "The cold --c2- is a virus")
  /\ answer_draft (Maincode.answer_drafting_agent (R:=Sample.runtime)
                     (W:=Sample.garbage_generation) Sample.initial_state)
     <> VStr CORRUPTED
  /\ answer_draft (Newmain.answer_drafting_agent (R:=Sample.runtime)
                     (W:=Sample.mojibake_generation) Sample.initial_state)
     = VStr (text "Rest " ++ [REPLACEMENT]).
Proof.
  split; [reflexivity|]. split; [reflexivity|].
  split; [vm_compute; discriminate | reflexivity].
Qed.

(* ===================================================================== *)
(** ** More on the research step *)
(* ===================================================================== *)

Lemma comprehension_contents (rs : list (list (str * value))) :
  comprehension (fun res => get res (text "content") (VStr NO_CONTENT))
                (List.map VDict rs)
  = Returns (List.map content_or_default rs).
Proof.
  induction rs as [|r rs IH]; [reflexivity|].
  cbn [List.map comprehension]. unfold bind. rewrite IH. reflexivity.
Qed.

Lemma contents_of_well_formed (d : list (str * value))
  (rs : list (list (str * value))) :
  dict_lookup d (text "results") = Some (VList (List.map VDict rs)) ->
  contents_of (VDict d) = Returns (List.map content_or_default rs).
Proof.
  intros H. unfold contents_of, get, bind. rewrite H.
  cbn [iter]. apply comprehension_contents.
Qed.

Lemma good_quality_text (s : str) :
  Accuracy.good_quality (VStr s) = Returns (good_text s).
Proof.
  unfold Accuracy.good_quality, good_text, contains_op, len, bind.
  destruct (contains (text "No content") s); reflexivity.
Qed.

Lemma comprehension_if_texts (texts : list str) :
  comprehension_if Accuracy.good_quality (List.map VStr texts)
  = Returns (List.map VStr (List.filter good_text texts)).
Proof.
  induction texts as [|s texts IH]; [reflexivity|].
  cbn [List.map comprehension_if List.filter]. unfold bind.
  rewrite good_quality_text, IH. destruct (good_text s); reflexivity.
Qed.

Lemma accuracy_research_data_texts (W : World) (state : ResearchState)
  (response : value) (texts : list str) :
  client_search (query state) = Returns response ->
  contents_of response = Returns (List.map VStr texts) ->
  research_data (Accuracy.research_agent state)
  = VList match List.filter good_text texts with
          | [] => [VStr NO_RESULTS]
          | kept => List.map VStr kept
          end.
Proof.
  intros H1 H2. rewrite accuracy_research_agent_unfold.
  rewrite H1. unfold bind at 1. rewrite H2. unfold bind at 1.
  rewrite comprehension_if_texts. unfold bind, try_except.
  cbn [research_data]. destruct (List.filter good_text texts); reflexivity.
Qed.

(** X1.  In [accuracy.py], when the contents of the response are texts,
    the research data is the list of the texts that do not hold
    ["No content"] and are longer than fifty characters, in their
    original order, or the placeholder when there is none; in particular
    all the texts are kept when all pass. *)
Theorem accuracy_keeps_good_texts (W : World) (state : ResearchState)
  (response : value) (texts : list str) :
  client_search (query state) = Returns response ->
  contents_of response = Returns (List.map VStr texts) ->
  research_data (Accuracy.research_agent state)
  = VList match List.filter good_text texts with
          | [] => [VStr NO_RESULTS]
          | kept => List.map VStr kept
          end
  /\ (texts <> [] -> forallb good_text texts = true ->
      research_data (Accuracy.research_agent state)
      = VList (List.map VStr texts)).
Proof.
  intros H1 H2.
  pose proof (accuracy_research_data_texts W state response texts H1 H2) as E.
  split; [exact E|]. intros Hne Hall. rewrite E.
  rewrite (forallb_filter_id good_text texts Hall).
  destruct texts; [contradiction | reflexivity].
Qed.

(** Five long results are all kept; short ones are dropped. *)
Lemma accuracy_keeps_good_texts_witness :
  research_data (Accuracy.research_agent (W:=Sample.healthy)
                   Sample.initial_state)
  = VList [ VStr (text "Rest, fluids and over-the-counter pain relievers ease the symptoms of a cold.");
            VStr (text "Decongestants can relieve a blocked nose, but should be used for a few days only.");
            VStr (text "Antibiotics do not work against the viruses that cause the common cold.");
            VStr (text "Most people recover from a common cold within seven to ten days without care.");
            VStr (text "Honey and warm drinks soothe a sore throat and a cough in adults and older children.") ].
Proof.
  apply (proj2 (accuracy_keeps_good_texts Sample.healthy Sample.initial_state
                  Sample.five_results
                  [ text "Rest, fluids and over-the-counter pain relievers ease the symptoms of a cold.";
                    text "Decongestants can relieve a blocked nose, but should be used for a few days only.";
                    text "Antibiotics do not work against the viruses that cause the common cold.";
                    text "Most people recover from a common cold within seven to ten days without care.";
                    text "Honey and warm drinks soothe a sore throat and a cough in adults and older children." ]
                  eq_refl eq_refl)).
  - discriminate.
  - reflexivity.
Defined.

Lemma all_reaches_nonblank (pre : list value) (s : str) (rest : list value) :
  Forall blank pre -> strip s <> [] ->
  all (fun item => s <- strip_method item ;; Returns (is_empty s))
      (pre ++ VStr s :: rest)
  = Returns false.
Proof.
  intros Hpre Hs. induction Hpre as [|item pre [b [-> Hb]] _ IH].
  - cbn [app all strip_method]. unfold bind.
    apply is_empty_false in Hs. rewrite Hs. reflexivity.
  - cbn [app all strip_method]. unfold bind at 1 2.
    rewrite Hb. cbn [is_empty]. exact IH.
Qed.

Lemma all_reaches_non_text (pre : list value) (v : value) (rest : list value) :
  Forall blank pre -> (forall s, v <> VStr s) ->
  all (fun item => s <- strip_method item ;; Returns (is_empty s))
      (pre ++ v :: rest)
  = Raises AttributeError.
Proof.
  intros Hpre Hv. induction Hpre as [|item pre [b [-> Hb]] _ IH].
  - cbn [app all]. unfold bind.
    destruct v; try reflexivity. exfalso. exact (Hv s eq_refl).
  - cbn [app all strip_method]. unfold bind at 1 2.
    rewrite Hb. cbn [is_empty]. exact IH.
Qed.

Lemma maincode_research_data_contents (W : World) (state : ResearchState)
  (response : value) (contents : list value) (outcome : result bool) :
  client_search (query state) = Returns response ->
  contents_of response = Returns contents ->
  contents <> [] ->
  all (fun item => s <- strip_method item ;; Returns (is_empty s)) contents
  = outcome ->
  research_data (Maincode.research_agent state)
  = match outcome with
    | Returns true => VList [VStr NO_RESULTS]
    | Returns false => VList contents
    | Raises _ => VList [VStr SEARCH_ERROR]
    end.
Proof.
  intros H1 H2 Hne Hall. rewrite maincode_research_agent_unfold.
  rewrite H1. unfold bind at 1. rewrite H2. unfold bind at 1.
  destruct contents as [|item items]; [contradiction|].
  rewrite Hall. unfold bind, try_except.
  destruct outcome as [[]|]; reflexivity.
Qed.

(** X2.  In [maincode.py] and [newmain.py], as soon as the contents hold
    a text that is not blank, preceded by blank texts only, the research
    data is the whole list of contents as extracted: the blank texts
    before it and whatever follows it are kept, texts or not. *)
Theorem maincode_keeps_all_contents (W : World) (state : ResearchState)
  (response : value) (pre : list value) (s : str) (rest : list value) :
  client_search (query state) = Returns response ->
  contents_of response = Returns (pre ++ VStr s :: rest) ->
  Forall blank pre -> strip s <> [] ->
  research_data (Maincode.research_agent state)
  = VList (pre ++ VStr s :: rest)
  /\ research_data (Newmain.research_agent state)
     = VList (pre ++ VStr s :: rest).
Proof.
  intros H1 H2 Hpre Hs.
  assert (research_data (Maincode.research_agent state)
          = VList (pre ++ VStr s :: rest)) as E.
  { apply (maincode_research_data_contents W state response
             (pre ++ VStr s :: rest) (Returns false) H1 H2).
    - destruct pre; discriminate.
    - apply all_reaches_nonblank; assumption. }
  split; exact E.
Qed.

(** A blank result, a real one and a result whose content is [null] are
    all kept. *)
Lemma maincode_keeps_all_contents_witness :
  research_data (Maincode.research_agent (W:=Sample.mixed_results)
                   Sample.initial_state)
  = VList [VStr (text "  "); VStr (text "Rest helps."); VNone].
Proof.
  refine (proj1 (maincode_keeps_all_contents Sample.mixed_results
                  Sample.initial_state Sample.mixed_response
                  [VStr (text "  ")] (text "Rest helps.") [VNone]
                  eq_refl eq_refl _ _)).
  - repeat constructor. exists (text "  "). split; reflexivity.
  - vm_compute. discriminate.
Defined.

Lemma filter_none (A B : Type) (keep : B -> bool) (b : B) (l : list A) :
  keep b = false -> List.filter keep (List.map (fun _ => b) l) = [].
Proof.
  intros H. induction l as [|x l IH]; [reflexivity|].
  cbn [List.map List.filter]. rewrite H. exact IH.
Qed.

(** X3.  A result without a [content] field is read as the text
    ["No content available."].  When no result has the field,
    [maincode.py] and [newmain.py] pass that text on once per result (it
    is not blank, so the no-result placeholder is not used), while
    [accuracy.py] filters every copy out and falls back on the
    placeholder. *)
Theorem missing_content_field (W : World) (state : ResearchState)
  (d : list (str * value)) (rs : list (list (str * value))) :
  client_search (query state) = Returns (VDict d) ->
  dict_lookup d (text "results") = Some (VList (List.map VDict rs)) ->
  rs <> [] ->
  Forall (fun r => dict_lookup r (text "content") = None) rs ->
  research_data (Maincode.research_agent state)
  = VList (List.map (fun _ => VStr NO_CONTENT) rs)
  /\ research_data (Newmain.research_agent state)
     = VList (List.map (fun _ => VStr NO_CONTENT) rs)
  /\ research_data (Accuracy.research_agent state) = VList [VStr NO_RESULTS].
Proof.
  intros H1 H2 Hne Hrs.
  pose proof (contents_of_well_formed d rs H2) as Hc.
  assert (List.map content_or_default rs
          = List.map (fun _ => VStr NO_CONTENT) rs) as E.
  { apply map_ext_in. intros r Hr. rewrite Forall_forall in Hrs.
    unfold content_or_default. rewrite (Hrs r Hr). reflexivity. }
  rewrite E in Hc.
  assert (research_data (Maincode.research_agent state)
          = VList (List.map (fun _ => VStr NO_CONTENT) rs)) as HM.
  { apply (maincode_research_data_contents W state (VDict d)
             (List.map (fun _ => VStr NO_CONTENT) rs) (Returns false) H1 Hc).
    - destruct rs; [contradiction | discriminate].
    - destruct rs as [|r rs']; [contradiction|].
      apply (all_reaches_nonblank [] NO_CONTENT
               (List.map (fun _ => VStr NO_CONTENT) rs') (Forall_nil _)).
      vm_compute. discriminate. }
  split; [exact HM|]. split; [exact HM|].
  assert (List.map (fun _ : list (str * value) => VStr NO_CONTENT) rs
          = List.map VStr (List.map (fun _ => NO_CONTENT) rs)) as E2
    by (rewrite map_map; reflexivity).
  rewrite E2 in Hc.
  rewrite (accuracy_research_data_texts W state (VDict d) _ H1 Hc).
  rewrite (filter_none _ _ good_text NO_CONTENT rs) by reflexivity.
  reflexivity.
Qed.

(** Two results that carry a title but no content. *)
Lemma missing_content_field_witness :
  research_data
    (Maincode.research_agent (W:=Sample.untitled_results) Sample.initial_state)
  = VList [VStr NO_CONTENT; VStr NO_CONTENT]
  /\ research_data
       (Accuracy.research_agent (W:=Sample.untitled_results)
          Sample.initial_state)
     = VList [VStr NO_RESULTS].
Proof.
  pose proof (missing_content_field Sample.untitled_results
                Sample.initial_state
                [ (text "results",
                   VList [ VDict [ (text "title", VStr (text "Colds")) ];
                           VDict [ (text "title", VStr (text "Flu")) ] ]) ]
                [ [ (text "title", VStr (text "Colds")) ];
                  [ (text "title", VStr (text "Flu")) ] ]
                eq_refl eq_refl) as H.
  assert ([ [ (text "title", VStr (text "Colds")) ];
            [ (text "title", VStr (text "Flu")) ] ]
          <> ([] : list (list (str * value)))) as Hne by discriminate.
  specialize (H Hne).
  assert (Forall (fun r => dict_lookup r (text "content") = None)
            [ [ (text "title", VStr (text "Colds")) ];
              [ (text "title", VStr (text "Flu")) ] ]) as Hrs
    by (repeat constructor).
  destruct (H Hrs) as (HM & _ & HA). split; [exact HM | exact HA].
Defined.

Lemma comprehension_non_dict (items : list value) (v : value) :
  In v items -> (forall r, v <> VDict r) ->
  exists e,
    comprehension (fun res => get res (text "content") (VStr NO_CONTENT)) items
    = Raises e.
Proof.
  intros Hin Hv. induction items as [|item items IH]; [contradiction|].
  cbn [comprehension]. unfold bind.
  destruct (get item (text "content") (VStr NO_CONTENT)) as [c|e] eqn:G;
    [|exists e; reflexivity].
  destruct Hin as [-> | Hin].
  - destruct v; try discriminate. exfalso. exact (Hv d eq_refl).
  - destruct (IH Hin) as [e He]. rewrite He. exists e. reflexivity.
Qed.

Lemma research_error_of_contents (W : World) (state : ResearchState)
  (response : value) (e : exn) :
  client_search (query state) = Returns response ->
  contents_of response = Raises e ->
  research_data (Maincode.research_agent state) = VList [VStr SEARCH_ERROR]
  /\ research_data (Newmain.research_agent state) = VList [VStr SEARCH_ERROR]
  /\ research_data (Accuracy.research_agent state) = VList [VStr SEARCH_ERROR].
Proof.
  intros H1 H2.
  change (@Newmain.research_agent W) with (@Maincode.research_agent W).
  rewrite maincode_research_agent_unfold, accuracy_research_agent_unfold.
  rewrite H1. unfold bind. rewrite H2. repeat split.
Qed.

(** X4.  A response that is not a mapping, a [results] field that is
    [None], a boolean or a number, and a result that is not a mapping
    all end in the error placeholder, in the three scripts: the whole
    response is given up, also when other results are well formed. *)
Theorem malformed_response_is_error (W : World) (state : ResearchState)
  (response : value) :
  client_search (query state) = Returns response ->
  (forall d, response <> VDict d)
  \/ (exists d v, response = VDict d
                  /\ dict_lookup d (text "results") = Some v /\ scalar v)
  \/ (exists d items v,
         response = VDict d
         /\ dict_lookup d (text "results") = Some (VList items)
         /\ In v items /\ (forall r, v <> VDict r)) ->
  research_data (Maincode.research_agent state) = VList [VStr SEARCH_ERROR]
  /\ research_data (Newmain.research_agent state) = VList [VStr SEARCH_ERROR]
  /\ research_data (Accuracy.research_agent state) = VList [VStr SEARCH_ERROR].
Proof.
  intros H1 H.
  assert (exists e, contents_of response = Raises e) as [e He].
  { destruct H as [H | [(d & v & -> & Hd & Hv) | (d & items & v & -> & Hd & Hin & Hv)]].
    - exists AttributeError. destruct response; try reflexivity.
      exfalso. exact (H d eq_refl).
    - exists TypeError. unfold contents_of, get, bind. rewrite Hd.
      destruct Hv as [-> | [[b ->] | [z ->]]]; reflexivity.
    - destruct (comprehension_non_dict items v Hin Hv) as [e He].
      exists e. unfold contents_of, get, bind. rewrite Hd. cbn [iter].
      exact He. }
  exact (research_error_of_contents W state response e H1 He).
Qed.

(** A response whose second result is a bare text. *)
Lemma malformed_response_is_error_witness :
  research_data
    (Accuracy.research_agent (W:=Sample.bare_text_result) Sample.initial_state)
  = VList [VStr SEARCH_ERROR].
Proof.
  refine (proj2 (proj2 (malformed_response_is_error Sample.bare_text_result
                          Sample.initial_state Sample.bare_text_response
                          eq_refl _))).
  right. right.
  exists [ (text "results",
            VList [ VDict [ (text "content", VStr (text "Rest helps.")) ];
                    VStr (text "Drink fluids.") ]) ],
         [ VDict [ (text "content", VStr (text "Rest helps.")) ];
           VStr (text "Drink fluids.") ],
         (VStr (text "Drink fluids.")).
  split; [reflexivity|]. split; [reflexivity|].
  split; [right; left; reflexivity | intros r; discriminate].
Defined.

Lemma good_quality_scalar (v : value) :
  scalar v -> Accuracy.good_quality v = Raises TypeError.
Proof. intros [-> | [[b ->] | [z ->]]]; reflexivity. Qed.

Lemma comprehension_if_scalar (items : list value) (v : value) :
  In v items -> scalar v ->
  exists e, comprehension_if Accuracy.good_quality items = Raises e.
Proof.
  intros Hin Hv. induction items as [|item items IH]; [contradiction|].
  cbn [comprehension_if]. unfold bind.
  destruct (Accuracy.good_quality item) as [b|e] eqn:G;
    [|exists e; reflexivity].
  destruct Hin as [-> | Hin].
  - rewrite (good_quality_scalar v Hv) in G. discriminate.
  - destruct (IH Hin) as [e He]. rewrite He. exists e. reflexivity.
Qed.

(** X5.  A content that is not a text.  In [accuracy.py] one content that
    is [None], a boolean or a number, anywhere in the list, turns the
    research data into the error placeholder.  In [maincode.py] and
    [newmain.py] a content that is not a text does so when only blank
    texts come before it. *)
Theorem non_text_content (W : World) (state : ResearchState)
  (response : value) (contents : list value) :
  client_search (query state) = Returns response ->
  contents_of response = Returns contents ->
  ((exists v, In v contents /\ scalar v) ->
   research_data (Accuracy.research_agent state) = VList [VStr SEARCH_ERROR])
  /\ (forall pre v rest,
         contents = pre ++ v :: rest -> Forall blank pre ->
         (forall s, v <> VStr s) ->
         research_data (Maincode.research_agent state)
         = VList [VStr SEARCH_ERROR]
         /\ research_data (Newmain.research_agent state)
            = VList [VStr SEARCH_ERROR]).
Proof.
  intros H1 H2. split.
  - intros (v & Hin & Hv).
    destruct (comprehension_if_scalar contents v Hin Hv) as [e He].
    rewrite accuracy_research_agent_unfold.
    rewrite H1. unfold bind at 1. rewrite H2. unfold bind at 1.
    rewrite He. reflexivity.
  - intros pre v rest -> Hpre Hv.
    assert (research_data (Maincode.research_agent state)
            = VList [VStr SEARCH_ERROR]) as E.
    { apply (maincode_research_data_contents W state response
               (pre ++ v :: rest) (Raises AttributeError) H1 H2).
      - destruct pre; discriminate.
      - apply all_reaches_non_text; assumption. }
    split; exact E.
Qed.

(** The [null] content of the mixed response: fatal for [accuracy.py],
    and for [newmain.py] when it comes first. *)
Lemma non_text_content_witness :
  research_data
    (Accuracy.research_agent (W:=Sample.mixed_results) Sample.initial_state)
  = VList [VStr SEARCH_ERROR]
  /\ research_data
       (Newmain.research_agent (W:=Sample.null_first) Sample.initial_state)
     = VList [VStr SEARCH_ERROR].
Proof.
  split.
  - refine (proj1 (non_text_content Sample.mixed_results Sample.initial_state
                     Sample.mixed_response
                     [VStr (text "  "); VStr (text "Rest helps."); VNone]
                     eq_refl eq_refl) _).
    exists VNone. split; [right; right; left; reflexivity | left; reflexivity].
  - refine (proj2 (proj2 (non_text_content Sample.null_first
                            Sample.initial_state Sample.null_first_response
                            [VNone; VStr (text "Rest helps.")]
                            eq_refl eq_refl)
                     [] VNone [VStr (text "Rest helps.")] eq_refl
                     (Forall_nil _) _)).
    intros s. discriminate.
Defined.

(* ===================================================================== *)
(** ** More on the drafting step *)
(* ===================================================================== *)

Lemma newmain_draft_of_response (R : Runtime) (W : World)
  (state : ResearchState) (response : value) :
  hf_client_text_generation (Newmain.prompt (research_data state))
  = Returns response ->
  answer_draft (Newmain.answer_drafting_agent state)
  = VStr (try_except (Newmain.checked_answer response) (fun _ => DRAFT_ERROR)).
Proof.
  intros H. unfold Newmain.answer_drafting_agent. rewrite H.
  unfold bind at 1. destruct (Newmain.checked_answer response); reflexivity.
Qed.

Lemma accuracy_draft_of_response (R : Runtime) (W : World)
  (state : ResearchState) (response : value) :
  hf_client_text_generation (Accuracy.prompt (research_data state))
  = Returns response ->
  answer_draft (Accuracy.answer_drafting_agent state)
  = VStr (try_except (Newmain.checked_answer response) (fun _ => DRAFT_ERROR)).
Proof.
  intros H. unfold Accuracy.answer_drafting_agent. rewrite H.
  unfold bind at 1. rewrite accuracy_checked_answer_same.
  destruct (Newmain.checked_answer response); reflexivity.
Qed.

Lemma checked_answer_text (g : str) :
  Newmain.checked_answer (VStr g)
  = Returns (if is_empty (strip g)
                || existsb (fun char => contains char (strip g)) GARBAGE
             then CORRUPTED else strip g).
Proof. reflexivity. Qed.

Lemma checked_answer_clean (g : str) :
  strip g <> [] -> garbage_free (strip g) = true ->
  Newmain.checked_answer (VStr g) = Returns (strip g).
Proof.
  intros Hne Hg. rewrite checked_answer_text.
  apply is_empty_false in Hne. rewrite Hne.
  unfold garbage_free in Hg. apply negb_true_iff in Hg. rewrite Hg.
  reflexivity.
Qed.

(** X6.  In [newmain.py] and [accuracy.py], a generated text that is not
    blank and holds none of the garbage patterns is stored stripped of
    its leading and trailing whitespace and otherwise unchanged. *)
Theorem clean_text_stored_stripped (R : Runtime) (W : World)
  (state : ResearchState) (g : str) :
  strip g <> [] -> garbage_free (strip g) = true ->
  (hf_client_text_generation (Newmain.prompt (research_data state))
   = Returns (VStr g) ->
   answer_draft (Newmain.answer_drafting_agent state) = VStr (strip g))
  /\ (hf_client_text_generation (Accuracy.prompt (research_data state))
      = Returns (VStr g) ->
      answer_draft (Accuracy.answer_drafting_agent state) = VStr (strip g)).
Proof.
  intros Hne Hg. split; intros H.
  - rewrite (newmain_draft_of_response R W state (VStr g) H).
    rewrite (checked_answer_clean g Hne Hg). reflexivity.
  - rewrite (accuracy_draft_of_response R W state (VStr g) H).
    rewrite (checked_answer_clean g Hne Hg). reflexivity.
Qed.

(** The healthy world: the answer comes back without its outer blanks. *)
Lemma clean_text_stored_stripped_witness :
  answer_draft (Newmain.answer_drafting_agent (R:=Sample.runtime)
                  (W:=Sample.healthy) Sample.initial_state)
  = VStr (text "Rest and drink fluids; antibiotics do not help.").
Proof.
  refine (proj1 (clean_text_stored_stripped Sample.runtime Sample.healthy
                   Sample.initial_state
                   (text "  Rest and drink fluids; antibiotics do not help.  ")
                   _ _) eq_refl).
  - vm_compute. discriminate.
  - reflexivity.
Defined.

(** X7.  A structured response in [newmain.py] and [accuracy.py]: when
    its [generated_text] field is a text, the answer is the one the same
    text would give as a plain response; when the field is absent, the
    answer is the corruption sentinel; when the field is not a text, the
    answer is ["Error fetching response."]. *)
Theorem structured_response (R : Runtime) (W : World)
  (state : ResearchState) (d : list (str * value)) :
  (hf_client_text_generation (Newmain.prompt (research_data state))
   = Returns (VDict d) ->
   (forall g, dict_lookup d (text "generated_text") = Some (VStr g) ->
              answer_draft (Newmain.answer_drafting_agent state)
              = VStr (if is_empty (strip g)
                         || existsb (fun char => contains char (strip g)) GARBAGE
                      then CORRUPTED else strip g))
   /\ (dict_lookup d (text "generated_text") = None ->
       answer_draft (Newmain.answer_drafting_agent state) = VStr CORRUPTED)
   /\ (forall v, dict_lookup d (text "generated_text") = Some v ->
                 (forall g, v <> VStr g) ->
                 answer_draft (Newmain.answer_drafting_agent state)
                 = VStr DRAFT_ERROR))
  /\ (hf_client_text_generation (Accuracy.prompt (research_data state))
      = Returns (VDict d) ->
      (forall g, dict_lookup d (text "generated_text") = Some (VStr g) ->
                 answer_draft (Accuracy.answer_drafting_agent state)
                 = VStr (if is_empty (strip g)
                            || existsb (fun char => contains char (strip g))
                                       GARBAGE
                         then CORRUPTED else strip g))
      /\ (dict_lookup d (text "generated_text") = None ->
          answer_draft (Accuracy.answer_drafting_agent state) = VStr CORRUPTED)
      /\ (forall v, dict_lookup d (text "generated_text") = Some v ->
                    (forall g, v <> VStr g) ->
                    answer_draft (Accuracy.answer_drafting_agent state)
                    = VStr DRAFT_ERROR)).
Proof.
  assert (forall g, dict_lookup d (text "generated_text") = Some (VStr g) ->
                    Newmain.checked_answer (VDict d)
                    = Newmain.checked_answer (VStr g)) as H1.
  { intros g Hg. unfold Newmain.checked_answer, get, bind. rewrite Hg.
    reflexivity. }
  assert (dict_lookup d (text "generated_text") = None ->
          Newmain.checked_answer (VDict d) = Returns CORRUPTED) as H2.
  { intros Hg. unfold Newmain.checked_answer, get, bind. rewrite Hg.
    reflexivity. }
  assert (forall v, dict_lookup d (text "generated_text") = Some v ->
                    (forall g, v <> VStr g) ->
                    Newmain.checked_answer (VDict d) = Raises AttributeError)
    as H3.
  { intros v Hg Hv. unfold Newmain.checked_answer, get, bind. rewrite Hg.
    destruct v; try reflexivity. exfalso. exact (Hv s eq_refl). }
  split; intros H.
  - rewrite (newmain_draft_of_response R W state (VDict d) H).
    split; [|split].
    + intros g Hg. rewrite (H1 g Hg), checked_answer_text. reflexivity.
    + intros Hg. rewrite (H2 Hg). reflexivity.
    + intros v Hg Hv. rewrite (H3 v Hg Hv). reflexivity.
  - rewrite (accuracy_draft_of_response R W state (VDict d) H).
    split; [|split].
    + intros g Hg. rewrite (H1 g Hg), checked_answer_text. reflexivity.
    + intros Hg. rewrite (H2 Hg). reflexivity.
    + intros v Hg Hv. rewrite (H3 v Hg Hv). reflexivity.
Qed.

(** A structured response with a text, and one whose field is [null]. *)
Lemma structured_response_witness :
  answer_draft (Newmain.answer_drafting_agent (R:=Sample.runtime)
                  (W:=Sample.structured_generation) Sample.initial_state)
  = VStr (text "Rest.")
  /\ answer_draft (Accuracy.answer_drafting_agent (R:=Sample.runtime)
                     (W:=Sample.null_generation) Sample.initial_state)
     = VStr DRAFT_ERROR.
Proof.
  split.
  - exact (proj1 (proj1 (structured_response Sample.runtime
                           Sample.structured_generation Sample.initial_state
                           [ (text "generated_text", VStr (text " Rest. ")) ])
                    eq_refl)
             (text " Rest. ") eq_refl).
  - refine (proj2 (proj2 (proj2 (structured_response Sample.runtime
                                   Sample.null_generation Sample.initial_state
                                   [ (text "generated_text", VNone) ])
                            eq_refl))
              VNone eq_refl _).
    intros g. discriminate.
Defined.

(** X8.  A response of an unrecognized shape.  In [newmain.py] and
    [accuracy.py], [None], a boolean, a number or a list gives
    ["Error: No answer generated."].  In [maincode.py] every response
    that is not a text does, a structured response included. *)
Theorem unrecognized_response (R : Runtime) (W : World)
  (state : ResearchState) (response : value) :
  (hf_client_text_generation (Newmain.prompt (research_data state))
   = Returns response ->
   scalar response \/ (exists l, response = VList l) ->
   answer_draft (Newmain.answer_drafting_agent state) = VStr NO_ANSWER)
  /\ (hf_client_text_generation (Accuracy.prompt (research_data state))
      = Returns response ->
      scalar response \/ (exists l, response = VList l) ->
      answer_draft (Accuracy.answer_drafting_agent state) = VStr NO_ANSWER)
  /\ (hf_client_text_generation (Maincode.prompt (research_data state))
      = Returns response ->
      (forall g, response <> VStr g) ->
      answer_draft (Maincode.answer_drafting_agent state) = VStr NO_ANSWER).
Proof.
  assert (scalar response \/ (exists l, response = VList l) ->
          Newmain.checked_answer response = Returns NO_ANSWER) as HN.
  { intros [[-> | [[b ->] | [z ->]]] | [l ->]]; reflexivity. }
  split; [|split]; intros H Hr.
  - rewrite (newmain_draft_of_response R W state response H), (HN Hr).
    reflexivity.
  - rewrite (accuracy_draft_of_response R W state response H), (HN Hr).
    reflexivity.
  - unfold Maincode.answer_drafting_agent. rewrite H.
    unfold bind, try_except. cbn [answer_draft]. f_equal.
    destruct response; try reflexivity. exfalso. exact (Hr s eq_refl).
Qed.

(** A structured response is read by [newmain.py] and refused by
    [maincode.py]. *)
Lemma unrecognized_response_witness :
  answer_draft (Maincode.answer_drafting_agent (R:=Sample.runtime)
                  (W:=Sample.structured_generation) Sample.initial_state)
  = VStr NO_ANSWER
  /\ answer_draft (Newmain.answer_drafting_agent (R:=Sample.runtime)
                     (W:=Sample.list_generation) Sample.initial_state)
     = VStr NO_ANSWER.
Proof.
  split.
  - refine (proj2 (proj2 (unrecognized_response Sample.runtime
                            Sample.structured_generation Sample.initial_state
                            (VDict [ (text "generated_text",
                                      VStr (text " Rest. ")) ])))
              eq_refl _).
    intros g. discriminate.
  - refine (proj1 (unrecognized_response Sample.runtime
                     Sample.list_generation Sample.initial_state
                     (VList [VStr (text "Rest.")]))
              eq_refl _).
    right. exists [VStr (text "Rest.")]. reflexivity.
Defined.

Lemma checked_answer_shape (response : value) (a : str) :
  Newmain.checked_answer response = Returns a ->
  a <> [] /\ strip a = a /\ garbage_free a = true.
Proof.
  unfold Newmain.checked_answer. unfold bind at 1.
  assert (forall t, strip t = t ->
            Returns (if is_empty t
                        || existsb (fun char => contains char t) GARBAGE
                     then CORRUPTED else t) = Returns a ->
            a <> [] /\ strip a = a /\ garbage_free a = true) as K.
  { assert (CORRUPTED <> [] /\ strip CORRUPTED = CORRUPTED
            /\ garbage_free CORRUPTED = true) as HC.
    { split; [intros X; vm_compute in X; discriminate X | split; reflexivity]. }
    intros t Ht.
    assert (garbage_free t
            = negb (existsb (fun char => contains char t) GARBAGE)) as G
      by reflexivity.
    set (garbled := existsb (fun char => contains char t) GARBAGE) in *.
    intros H. inversion H as [Ha]. clear H Ha.
    destruct (is_empty t) eqn:E1; [exact HC|].
    destruct garbled; [exact HC|].
    split; [apply is_empty_false, E1|]. split; [exact Ht | exact G]. }
  destruct response as [| b | z | s | l | d].
  - apply K. reflexivity.
  - apply K. reflexivity.
  - apply K. reflexivity.
  - apply K. apply strip_idempotent.
  - apply K. reflexivity.
  - unfold get, bind.
    destruct (match dict_lookup d (text "generated_text") with
              | Some v => v
              | None => VStr []
              end) as [| b | z | s | l | d']; try discriminate.
    cbn [strip_method]. apply K. apply strip_idempotent.
Qed.

(** X9.  In [newmain.py] and [accuracy.py], whatever the generation call
    does, the stored [answer_draft] is a text that is not empty, has no
    whitespace at either end and holds none of the garbage patterns. *)
Theorem later_scripts_answer_shape (R : Runtime) (W : World)
  (state : ResearchState) :
  (exists a, answer_draft (Newmain.answer_drafting_agent state) = VStr a
             /\ a <> [] /\ strip a = a /\ garbage_free a = true)
  /\ (exists a, answer_draft (Accuracy.answer_drafting_agent state) = VStr a
                /\ a <> [] /\ strip a = a /\ garbage_free a = true).
Proof.
  assert (DRAFT_ERROR <> [] /\ strip DRAFT_ERROR = DRAFT_ERROR
          /\ garbage_free DRAFT_ERROR = true) as HD
    by (split; [intros X; vm_compute in X; discriminate X
               | split; reflexivity]).
  split.
  - unfold Newmain.answer_drafting_agent, try_except. unfold bind at 1.
    destruct (hf_client_text_generation _) as [response|];
      [|exists DRAFT_ERROR; split; [reflexivity | exact HD]].
    unfold bind.
    destruct (Newmain.checked_answer response) as [a|] eqn:E;
      [|exists DRAFT_ERROR; split; [reflexivity | exact HD]].
    exists a. split; [reflexivity|]. exact (checked_answer_shape response a E).
  - unfold Accuracy.answer_drafting_agent, try_except. unfold bind at 1.
    destruct (hf_client_text_generation _) as [response|];
      [|exists DRAFT_ERROR; split; [reflexivity | exact HD]].
    unfold bind.
    destruct (Accuracy.checked_answer response) as [a|] eqn:E;
      [|exists DRAFT_ERROR; split; [reflexivity | exact HD]].
    exists a. split; [reflexivity|]. exact (checked_answer_shape response a E).
Qed.

Lemma replace_bullet_removes (s : str) : ~ In BULLET (replace BULLET HYPHEN s).
Proof.
  intros Hin. unfold replace in Hin. apply in_map_iff in Hin.
  destruct Hin as [x [Hx _]].
  destruct (N.eqb x BULLET) eqn:E.
  - vm_compute in Hx. discriminate Hx.
  - rewrite Hx, N.eqb_refl in E. discriminate E.
Qed.

Lemma checked_text_no_replacement (R : Runtime) (response : value) :
  ~ In REPLACEMENT (Maincode.checked_text response).
Proof.
  assert (~ In REPLACEMENT CORRUPTED) as HC
    by (apply contains_single_false; reflexivity).
  assert (~ In REPLACEMENT NO_ANSWER) as HN
    by (apply contains_single_false; reflexivity).
  unfold Maincode.checked_text.
  destruct response as [| b | z | s | l | d]; try exact HN.
  destruct (is_empty (Maincode.sanitize_response (strip s))); [exact HC|].
  cbn [orb].
  destruct (contains [REPLACEMENT] (Maincode.sanitize_response (strip s)))
    eqn:E; [exact HC|].
  apply contains_single_false, E.
Qed.

(** X10.  In [maincode.py], whatever the generation call does, the stored
    [answer_draft] is a text of printable characters only, without any
    bullet and without any replacement character. *)
Theorem maincode_answer_shape (R : Runtime) (U : UnicodeFacts R) (W : World)
  (state : ResearchState) :
  exists a, answer_draft (Maincode.answer_drafting_agent state) = VStr a
            /\ forallb isprintable a = true
            /\ ~ In BULLET a
            /\ ~ In REPLACEMENT a.
Proof.
  unfold Maincode.answer_drafting_agent, try_except, bind.
  destruct (hf_client_text_generation _) as [response|].
  - exists (Maincode.clean_answer response). split; [reflexivity|].
    unfold Maincode.clean_answer. cbv zeta.
    pose proof (checked_text_printable R U response) as Hp.
    pose proof (checked_text_no_replacement R response) as Hr.
    rewrite remove_empty_lines_one_line by (apply printable_no_LF, Hp).
    split; [|split].
    + apply replace_bullet_printable.
      destruct (is_empty _); [reflexivity | exact Hp].
    + apply replace_bullet_removes.
    + apply replace_bullet_no_new; [discriminate|].
      destruct (is_empty _); [intros [] | exact Hr].
  - exists DRAFT_ERROR. split; [reflexivity|]. split; [|split].
    + apply ascii_printable_isprintable. reflexivity.
    + apply contains_single_false. reflexivity.
    + apply contains_single_false. reflexivity.
Qed.

(** A generated list with bullets and a NUL character. *)
Lemma maincode_answer_shape_witness :
  exists a,
    answer_draft (Maincode.answer_drafting_agent (R:=Sample.runtime)
                    (W:=Sample.bullet_generation) Sample.initial_state)
    = VStr a
    /\ forallb Sample.isprintable a = true
    /\ ~ In BULLET a
    /\ ~ In REPLACEMENT a.
Proof.
  exact (maincode_answer_shape Sample.runtime sample_unicode_facts
           Sample.bullet_generation Sample.initial_state).
Defined.

Lemma maincode_clean_answer_text (R : Runtime) (U : UnicodeFacts R) (g : str) :
  strip (Maincode.sanitize_response (strip g)) <> [] ->
  ~ In REPLACEMENT g ->
  Maincode.clean_answer (VStr g)
  = replace BULLET HYPHEN (Maincode.sanitize_response (strip g)).
Proof.
  intros Hne Hr.
  pose proof (sanitization_chain_cases g) as E. cbv zeta in E.
  unfold sanitization_chain in E. rewrite E.
  assert (is_empty (Maincode.sanitize_response (strip g)) = false) as E1.
  { apply is_empty_false. intros H0. rewrite H0 in Hne. exact (Hne eq_refl). }
  assert (contains [REPLACEMENT] (Maincode.sanitize_response (strip g))
          = false) as E2.
  { apply contains_single_false. intros Hin. apply filter_In in Hin.
    destruct Hin as [Hin _]. exact (strip_not_In _ _ Hr Hin). }
  apply is_empty_false in Hne. rewrite E1, E2, Hne. reflexivity.
Qed.

(** X11.  In [maincode.py], a generated text whose printable part is not
    blank and holds no replacement character is stored as that printable
    part of the stripped text, with each bullet replaced by a hyphen. *)
Theorem maincode_clean_text_stored (R : Runtime) (U : UnicodeFacts R)
  (W : World) (state : ResearchState) (g : str) :
  hf_client_text_generation (Maincode.prompt (research_data state))
  = Returns (VStr g) ->
  strip (Maincode.sanitize_response (strip g)) <> [] ->
  ~ In REPLACEMENT g ->
  answer_draft (Maincode.answer_drafting_agent state)
  = VStr (replace BULLET HYPHEN (Maincode.sanitize_response (strip g))).
Proof.
  intros H Hne Hr. unfold Maincode.answer_drafting_agent. rewrite H.
  unfold bind, try_except. cbn [answer_draft]. f_equal.
  exact (maincode_clean_answer_text R U g Hne Hr).
Qed.

(** Bullets become hyphens and the NUL character disappears. *)
Lemma maincode_clean_text_stored_witness :
  answer_draft (Maincode.answer_drafting_agent (R:=Sample.runtime)
                  (W:=Sample.bullet_generation) Sample.initial_state)
  = VStr (text "- Rest - Fluids").
Proof.
  refine (maincode_clean_text_stored Sample.runtime sample_unicode_facts
            Sample.bullet_generation Sample.initial_state
            ([SPACE; BULLET] ++ text " Rest " ++ [0%N; BULLET] ++ text " Fluids")
            eq_refl _ _).
  - vm_compute. discriminate.
  - apply contains_single_false. reflexivity.
Defined.

(** X12.  [sanitize_response] only deletes characters: it distributes
    over concatenation, its result is never longer than its argument,
    every character it keeps is printable, and it returns its argument
    unchanged exactly when every character of it is printable. *)
Theorem sanitize_response_deletes_only (R : Runtime) (a b : str) :
  Maincode.sanitize_response (a ++ b)
  = Maincode.sanitize_response a ++ Maincode.sanitize_response b
  /\ (List.length (Maincode.sanitize_response a) <= List.length a)%nat
  /\ forallb isprintable (Maincode.sanitize_response a) = true
  /\ (Maincode.sanitize_response a = a <-> forallb isprintable a = true).
Proof.
  split; [apply filter_app|]. split; [apply filter_length_le|].
  split; [apply forallb_filter|]. split.
  - intros H. rewrite <- H. apply forallb_filter.
  - apply forallb_filter_id.
Qed.

(* ===================================================================== *)
(** ** The removal of the empty lines *)
(* ===================================================================== *)

Lemma split_cons_shape (sep : N) (s : str) :
  exists l ls, split sep s = l :: ls.
Proof.
  induction s as [|c s [l [ls IH]]]; [exists [], []; reflexivity|].
  cbn [split]. destruct (N.eqb c sep).
  - exists [], (split sep s). reflexivity.
  - rewrite IH. exists (c :: l), ls. reflexivity.
Qed.

Lemma join_cons (sep : str) (l l' : str) (ls : list str) :
  join sep (l :: l' :: ls) = l ++ sep ++ join sep (l' :: ls).
Proof. reflexivity. Qed.

Lemma join_split (sep : N) (s : str) : join [sep] (split sep s) = s.
Proof.
  induction s as [|c s IH]; [reflexivity|].
  cbn [split]. destruct (split_cons_shape sep s) as [l [ls E]].
  rewrite E in *. destruct (N.eqb_spec c sep) as [->|Hne].
  - rewrite join_cons, IH. reflexivity.
  - destruct ls as [|l' ls].
    + cbn [join] in *. rewrite IH. reflexivity.
    + rewrite <- IH. rewrite !join_cons. reflexivity.
Qed.

Lemma split_app_sep (sep : N) (l s : str) :
  ~ In sep l -> split sep (l ++ sep :: s) = l :: split sep s.
Proof.
  induction l as [|c l IH]; intros H.
  - cbn [app split]. rewrite N.eqb_refl. reflexivity.
  - cbn [app split]. destruct (N.eqb_spec c sep) as [->|Hne].
    + exfalso. apply H. left. reflexivity.
    + rewrite IH by (intros Hin; apply H; right; exact Hin). reflexivity.
Qed.

Lemma split_join (sep : N) (ls : list str) :
  ls <> [] -> Forall (fun l => ~ In sep l) ls ->
  split sep (join [sep] ls) = ls.
Proof.
  intros Hne H. induction H as [|l ls Hl Hls IH]; [contradiction|].
  destruct ls as [|l' ls].
  - cbn [join]. apply split_no_sep. exact Hl.
  - rewrite join_cons. cbn [app]. rewrite split_app_sep by exact Hl.
    f_equal. apply IH. discriminate.
Qed.

Lemma split_lines_no_sep (sep : N) (s : str) :
  Forall (fun l => ~ In sep l) (split sep s).
Proof.
  induction s as [|c s IH]; [repeat constructor; intros []|].
  cbn [split]. destruct (N.eqb_spec c sep) as [->|Hne].
  - constructor; [intros [] | exact IH].
  - destruct (split sep s) as [|l ls]; [repeat constructor|].
    + intros [H | []]. exact (Hne H).
    + inversion IH as [|? ? Hl Hls]; subst. constructor; [|exact Hls].
      intros [H | H]; [exact (Hne H) | exact (Hl H)].
Qed.

Lemma Forall_filter (A : Type) (P : A -> Prop) (keep : A -> bool)
  (l : list A) :
  Forall P l -> Forall P (List.filter keep l).
Proof.
  intros H. rewrite Forall_forall in *. intros x Hx.
  apply filter_In in Hx. apply H, Hx.
Qed.

Lemma filter_twice (A : Type) (keep : A -> bool) (l : list A) :
  List.filter keep (List.filter keep l) = List.filter keep l.
Proof. apply forallb_filter_id, forallb_filter. Qed.

(** X13.  The removal of the empty lines of [maincode.py], on any text:
    splitting at the newlines and joining again gives the text back; the
    lines of the result are exactly the lines of the text that are not
    blank, in their order; the result is empty when every line is blank;
    a text without a blank line is unchanged; and removing the empty
    lines twice is the same as removing them once. *)
Theorem remove_empty_lines_keeps_nonblank (s : str) :
  join [LF] (split LF s) = s
  /\ (List.filter nonblank (split LF s) <> [] ->
      split LF (Maincode.remove_empty_lines s)
      = List.filter nonblank (split LF s))
  /\ (List.filter nonblank (split LF s) = [] ->
      Maincode.remove_empty_lines s = [])
  /\ (forallb nonblank (split LF s) = true ->
      Maincode.remove_empty_lines s = s)
  /\ Maincode.remove_empty_lines (Maincode.remove_empty_lines s)
     = Maincode.remove_empty_lines s.
Proof.
  assert (Maincode.remove_empty_lines s
          = join [LF] (List.filter nonblank (split LF s))) as E by reflexivity.
  assert (List.filter nonblank (split LF s) <> [] ->
          split LF (Maincode.remove_empty_lines s)
          = List.filter nonblank (split LF s)) as K.
  { intros Hne. rewrite E. apply split_join; [exact Hne|].
    apply Forall_filter, split_lines_no_sep. }
  split; [apply join_split|]. split; [exact K|]. split; [|split].
  - intros H. rewrite E, H. reflexivity.
  - intros H. rewrite E, (forallb_filter_id nonblank _ H). apply join_split.
  - destruct (List.filter nonblank (split LF s)) as [|l ls] eqn:F.
    + rewrite E. reflexivity.
    + assert (Maincode.remove_empty_lines (Maincode.remove_empty_lines s)
              = join [LF]
                  (List.filter nonblank
                     (split LF (Maincode.remove_empty_lines s)))) as E2
        by reflexivity.
      rewrite E2. rewrite K by discriminate.
      rewrite <- F, filter_twice, F. symmetry. exact E.
Qed.

(** A text with an empty line and a line of spaces between two
    paragraphs. *)
Lemma remove_empty_lines_keeps_nonblank_witness :
  split LF (Maincode.remove_empty_lines
              (text "Rest." ++ [LF; LF; SPACE; SPACE; LF] ++ text "Fluids."))
  = [text "Rest."; text "Fluids."]
  /\ Maincode.remove_empty_lines [SPACE; LF; LF] = []
  /\ Maincode.remove_empty_lines (text "Rest." ++ [LF] ++ text "Fluids.")
     = text "Rest." ++ [LF] ++ text "Fluids.".
Proof.
  split; [|split].
  - refine (proj1 (proj2 (remove_empty_lines_keeps_nonblank
                            (text "Rest." ++ [LF; LF; SPACE; SPACE; LF]
                             ++ text "Fluids."))) _).
    vm_compute. discriminate.
  - exact (proj1 (proj2 (proj2 (remove_empty_lines_keeps_nonblank
                                  [SPACE; LF; LF]))) eq_refl).
  - exact (proj1 (proj2 (proj2 (proj2 (remove_empty_lines_keeps_nonblank
                                         (text "Rest." ++ [LF]
                                          ++ text "Fluids."))))) eq_refl).
Defined.

(* ===================================================================== *)
(** ** More on the runner *)
(* ===================================================================== *)

Lemma forallb_false (A : Type) (p : A -> bool) (l : list A) (x : A) :
  In x l -> p x = false -> forallb p l = false.
Proof.
  intros Hin Hx. destruct (forallb p l) eqn:E; [|reflexivity].
  rewrite forallb_forall in E. rewrite (E x Hin) in Hx. discriminate.
Qed.

Lemma from_kwargs_missing_field (d : list (str * value)) (field : str) :
  In field FIELDS -> dict_lookup d field = None ->
  ResearchState_from_kwargs d = Raises TypeError.
Proof.
  intros Hin H. unfold ResearchState_from_kwargs.
  destruct (forallb _ d); [|reflexivity].
  unfold FIELDS in Hin. cbn [In] in Hin.
  destruct Hin as [<- | [<- | [<- | []]]]; rewrite H.
  - reflexivity.
  - destruct (dict_lookup d (text "query")); reflexivity.
  - destruct (dict_lookup d (text "query"));
      destruct (dict_lookup d (text "research_data")); reflexivity.
Qed.

Lemma from_kwargs_unknown_key (d : list (str * value)) (k : str) (v : value) :
  In (k, v) d -> existsb (str_eqb k) FIELDS = false ->
  ResearchState_from_kwargs d = Raises TypeError.
Proof.
  intros Hin H. unfold ResearchState_from_kwargs.
  rewrite (forallb_false _ (fun kv => existsb (str_eqb (fst kv)) FIELDS)
             d (k, v) Hin H).
  reflexivity.
Qed.

(** X14.  When the final value is a mapping that lacks one of the three
    fields, or holds a key that is not a field, the runner of each script
    raises [TypeError]: it returns neither an answer nor an error
    text. *)
Theorem runner_raises_on_ill_formed_mapping (d : list (str * value)) :
  (exists field, In field FIELDS /\ dict_lookup d field = None)
  \/ (exists k v, In (k, v) d /\ existsb (str_eqb k) FIELDS = false) ->
  Maincode.read_final_state (OValue (VDict d)) = Raises TypeError
  /\ Newmain.read_final_state (OValue (VDict d)) = Raises TypeError
  /\ Accuracy.read_final_state (OValue (VDict d)) = Raises TypeError.
Proof.
  intros H.
  assert (ResearchState_from_kwargs d = Raises TypeError) as E.
  { destruct H as [(field & Hin & Hf) | (k & v & Hin & Hk)].
    - exact (from_kwargs_missing_field d field Hin Hf).
    - exact (from_kwargs_unknown_key d k v Hin Hk). }
  unfold Maincode.read_final_state, Newmain.read_final_state,
    Accuracy.read_final_state, bind.
  rewrite E. repeat split.
Qed.

(** A mapping without [answer_draft], and one with a key too many. *)
Lemma runner_raises_on_ill_formed_mapping_witness :
  Maincode.read_final_state
    (OValue (VDict [ (text "query", VStr Sample.a_query);
                     (text "research_data", VList []) ]))
  = Raises TypeError
  /\ Accuracy.read_final_state
       (OValue (VDict [ (text "query", VStr Sample.a_query);
                        (text "research_data", VList []);
                        (text "answer_draft", VStr (text "Rest."));
                        (text "score", VInt 1) ]))
     = Raises TypeError.
Proof.
  split.
  - refine (proj1 (runner_raises_on_ill_formed_mapping
                     [ (text "query", VStr Sample.a_query);
                       (text "research_data", VList []) ] _)).
    left. exists (text "answer_draft").
    split; [right; right; left; reflexivity | reflexivity].
  - refine (proj2 (proj2 (runner_raises_on_ill_formed_mapping
                            [ (text "query", VStr Sample.a_query);
                              (text "research_data", VList []);
                              (text "answer_draft", VStr (text "Rest."));
                              (text "score", VInt 1) ] _))).
    right. exists (text "score"), (VInt 1).
    split; [right; right; right; left; reflexivity | reflexivity].
Defined.

(** X15.  The answer of [run_research_system] does not depend on the form
    in which the engine returns the final state: with the same two
    clients, an engine that returns the state object and one that
    returns the mapping of its fields give the same result, in the three
    scripts. *)
Theorem run_independent_of_engine_form (R : Runtime)
  (search : value -> result value) (generate : str -> result value)
  (user_query : str) :
  Maincode.run_research_system
    (W:=Build_World search generate ReturnsState) user_query
  = Maincode.run_research_system
      (W:=Build_World search generate ReturnsMapping) user_query
  /\ Newmain.run_research_system
       (W:=Build_World search generate ReturnsState) user_query
     = Newmain.run_research_system
         (W:=Build_World search generate ReturnsMapping) user_query
  /\ Accuracy.run_research_system
       (W:=Build_World search generate ReturnsState) user_query
     = Accuracy.run_research_system
         (W:=Build_World search generate ReturnsMapping) user_query.
Proof.
  split; [|split].
  - unfold Maincode.run_research_system. cbv zeta.
    rewrite !maincode_read_invoke. reflexivity.
  - unfold Newmain.run_research_system. cbv zeta.
    rewrite !newmain_read_invoke. reflexivity.
  - unfold Accuracy.run_research_system. cbv zeta.
    rewrite !accuracy_read_invoke. reflexivity.
Qed.

Lemma all_texts_reach_nonblank (texts : list str) :
  existsb nonblank texts = true ->
  all (fun item => s <- strip_method item ;; Returns (is_empty s))
      (List.map VStr texts)
  = Returns false.
Proof.
  induction texts as [|s texts IH]; [discriminate|].
  cbn [existsb List.map all strip_method]. unfold bind at 1 2.
  unfold nonblank at 1. destruct (is_empty (strip s)).
  - cbn [negb orb]. exact IH.
  - reflexivity.
Qed.

Lemma read_nonempty_answer (s : ResearchState) (a : str) :
  answer_draft s = VStr a -> a <> [] ->
  Maincode.read_final_state (OState s) = Returns (VStr a)
  /\ Newmain.read_final_state (OState s) = Returns (VStr a)
  /\ Accuracy.read_final_state (OState s) = Returns (VStr a).
Proof.
  intros Ha Hne. unfold Maincode.read_final_state, Newmain.read_final_state,
    Accuracy.read_final_state, bind.
  rewrite Ha. destruct a; [contradiction|]. repeat split.
Qed.

(** X16.  A run where both collaborators answer.  When the search returns
    texts and the generation client, called with the prompt built from
    the research data, returns a clean text, [run_research_system]
    returns that text stripped: in [accuracy.py] when every text passes
    the quality filter (the research data is then all the texts), in
    [newmain.py] when one text is not blank. *)
Theorem healthy_run_returns_stripped_text (R : Runtime) (W : World)
  (user_query : str) (response : value) (texts : list str) (g : str) :
  client_search (VStr user_query) = Returns response ->
  contents_of response = Returns (List.map VStr texts) ->
  strip g <> [] -> garbage_free (strip g) = true ->
  (texts <> [] -> forallb good_text texts = true ->
   hf_client_text_generation (Accuracy.prompt (VList (List.map VStr texts)))
   = Returns (VStr g) ->
   Accuracy.run_research_system user_query = Returns (VStr (strip g)))
  /\ (existsb nonblank texts = true ->
      hf_client_text_generation (Newmain.prompt (VList (List.map VStr texts)))
      = Returns (VStr g) ->
      Newmain.run_research_system user_query = Returns (VStr (strip g))).
Proof.
  intros H1 H2 Hne Hg.
  set (initial := mkResearchState (VStr user_query) (VList []) (VStr [])).
  split.
  - intros Ht Hall Hgen.
    unfold Accuracy.run_research_system. cbv zeta. fold initial.
    rewrite accuracy_read_invoke.
    assert (research_data (Accuracy.research_agent initial)
            = VList (List.map VStr texts)) as E.
    { rewrite (accuracy_research_data_texts W initial response texts H1 H2).
      rewrite (forallb_filter_id good_text texts Hall).
      destruct texts; [contradiction | reflexivity]. }
    apply read_nonempty_answer; [|exact Hne].
    rewrite <- E in Hgen.
    rewrite (accuracy_draft_of_response R W _ (VStr g) Hgen).
    rewrite (checked_answer_clean g Hne Hg). reflexivity.
  - intros Hex Hgen.
    unfold Newmain.run_research_system. cbv zeta. fold initial.
    rewrite newmain_read_invoke.
    assert (research_data (Newmain.research_agent initial)
            = VList (List.map VStr texts)) as E.
    { change (@Newmain.research_agent W) with (@Maincode.research_agent W).
      apply (maincode_research_data_contents W initial response
               (List.map VStr texts) (Returns false) H1 H2).
      - destruct texts; [discriminate Hex | discriminate].
      - apply all_texts_reach_nonblank, Hex. }
    apply read_nonempty_answer; [|exact Hne].
    rewrite <- E in Hgen.
    rewrite (newmain_draft_of_response R W _ (VStr g) Hgen).
    rewrite (checked_answer_clean g Hne Hg). reflexivity.
Qed.

(** The healthy world, end to end. *)
Lemma healthy_run_returns_stripped_text_witness :
  Accuracy.run_research_system (R:=Sample.runtime) (W:=Sample.healthy)
    Sample.a_query
  = Returns (VStr (text "Rest and drink fluids; antibiotics do not help."))
  /\ Newmain.run_research_system (R:=Sample.runtime) (W:=Sample.healthy)
       Sample.a_query
     = Returns (VStr (text "Rest and drink fluids; antibiotics do not help.")).
Proof.
  pose proof (healthy_run_returns_stripped_text Sample.runtime Sample.healthy
                Sample.a_query Sample.five_results
                [ text "Rest, fluids and over-the-counter pain relievers ease the symptoms of a cold.";
                  text "Decongestants can relieve a blocked nose, but should be used for a few days only.";
                  text "Antibiotics do not work against the viruses that cause the common cold.";
                  text "Most people recover from a common cold within seven to ten days without care.";
                  text "Honey and warm drinks soothe a sore throat and a cough in adults and older children." ]
                (text "  Rest and drink fluids; antibiotics do not help.  ")
                eq_refl eq_refl) as H.
  assert (strip (text "  Rest and drink fluids; antibiotics do not help.  ")
          <> []) as Hne by (intros X; vm_compute in X; discriminate X).
  destruct (H Hne eq_refl) as [HA HN]. split.
  - apply HA; [discriminate | reflexivity | reflexivity].
  - apply HN; reflexivity.
Defined.

(** X17.  A run of [maincode.py] where both collaborators answer.  When
    the contents hold a text that is not blank after blank texts only,
    and the generation client, called with the prompt built from all the
    contents, returns a text whose printable part is not blank and holds
    no replacement character, [run_research_system] returns the
    printable part of the stripped text with its bullets replaced by
    hyphens. *)
Theorem maincode_healthy_run (R : Runtime) (U : UnicodeFacts R) (W : World)
  (user_query : str) (response : value)
  (pre : list value) (s : str) (rest : list value) (g : str) :
  client_search (VStr user_query) = Returns response ->
  contents_of response = Returns (pre ++ VStr s :: rest) ->
  Forall blank pre -> strip s <> [] ->
  hf_client_text_generation (Maincode.prompt (VList (pre ++ VStr s :: rest)))
  = Returns (VStr g) ->
  strip (Maincode.sanitize_response (strip g)) <> [] ->
  ~ In REPLACEMENT g ->
  Maincode.run_research_system user_query
  = Returns (VStr (replace BULLET HYPHEN
                     (Maincode.sanitize_response (strip g)))).
Proof.
  intros H1 H2 Hpre Hs Hgen Hne Hr.
  set (initial := mkResearchState (VStr user_query) (VList []) (VStr [])).
  unfold Maincode.run_research_system. cbv zeta. fold initial.
  rewrite maincode_read_invoke.
  assert (research_data (Maincode.research_agent initial)
          = VList (pre ++ VStr s :: rest)) as E.
  { apply (maincode_research_data_contents W initial response
             (pre ++ VStr s :: rest) (Returns false) H1 H2).
    - destruct pre; discriminate.
    - apply all_reaches_nonblank; assumption. }
  apply read_nonempty_answer.
  - unfold Maincode.answer_drafting_agent. rewrite E, Hgen.
    unfold bind, try_except. cbn [answer_draft]. f_equal.
    exact (maincode_clean_answer_text R U g Hne Hr).
  - intros H0. apply replace_bullet_nil in H0. rewrite H0 in Hne.
    exact (Hne eq_refl).
Qed.

(** The five results and a bulleted answer. *)
Lemma maincode_healthy_run_witness :
  Maincode.run_research_system (R:=Sample.runtime)
    (W:=Sample.bullet_generation) Sample.a_query
  = Returns (VStr (text "- Rest - Fluids")).
Proof.
  refine (maincode_healthy_run Sample.runtime sample_unicode_facts
            Sample.bullet_generation Sample.a_query Sample.five_results []
            (text "Rest, fluids and over-the-counter pain relievers ease the symptoms of a cold.")
            [ VStr (text "Decongestants can relieve a blocked nose, but should be used for a few days only.");
              VStr (text "Antibiotics do not work against the viruses that cause the common cold.");
              VStr (text "Most people recover from a common cold within seven to ten days without care.");
              VStr (text "Honey and warm drinks soothe a sore throat and a cough in adults and older children.") ]
            ([SPACE; BULLET] ++ text " Rest " ++ [0%N; BULLET] ++ text " Fluids")
            eq_refl eq_refl (Forall_nil _) _ eq_refl _ _).
  - intros X. vm_compute in X. discriminate X.
  - intros X. vm_compute in X. discriminate X.
  - apply contains_single_false. reflexivity.
Defined.

(* ===================================================================== *)
(** ** Start-up *)
(* ===================================================================== *)

(** X18.  What each script needs to start.  [maincode.py] starts exactly
    when both keys are set and not empty, and hands the Hugging Face key
    to its inference client; [newmain.py] and [accuracy.py] start
    exactly when the Tavily key is set and not empty, whatever the
    Hugging Face key is, and never hand that key to their client.  When
    the Tavily key is missing, the three scripts stop with the Tavily
    message, also when the other key is missing too. *)
Theorem startup_requirements (tavily huggingface : option str) :
  ((exists c, Startup.maincode tavily huggingface = Startup.Started c)
   <-> (exists kt kh, tavily = Some kt /\ kt <> []
                      /\ huggingface = Some kh /\ kh <> []))
  /\ ((exists c, Startup.newmain tavily huggingface = Startup.Started c)
      <-> (exists kt, tavily = Some kt /\ kt <> []))
  /\ ((exists c, Startup.accuracy tavily huggingface = Startup.Started c)
      <-> (exists kt, tavily = Some kt /\ kt <> []))
  /\ (forall c, Startup.maincode tavily huggingface = Startup.Started c ->
                tavily = Some (Startup.tavily_key c)
                /\ Startup.hf_token c = huggingface)
  /\ (forall c, Startup.newmain tavily huggingface = Startup.Started c
                \/ Startup.accuracy tavily huggingface = Startup.Started c ->
                tavily = Some (Startup.tavily_key c)
                /\ Startup.hf_token c = None)
  /\ (tavily = None \/ tavily = Some [] ->
      Startup.maincode tavily huggingface
      = Startup.ValueError Startup.TAVILY_MISSING
      /\ Startup.newmain tavily huggingface
         = Startup.ValueError Startup.TAVILY_MISSING
      /\ Startup.accuracy tavily huggingface
         = Startup.ValueError Startup.TAVILY_MISSING).
Proof.
  split; [|split; [|split; [|split; [|split]]]].
  - split.
    + intros [c H]. destruct tavily as [[|t kt]|]; try discriminate H.
      destruct huggingface as [[|h kh]|]; try discriminate H.
      exists (t :: kt), (h :: kh). repeat split; discriminate.
    + intros (kt & kh & -> & Ht & -> & Hh).
      destruct kt; [contradiction|]. destruct kh; [contradiction|].
      eexists. reflexivity.
  - split.
    + intros [c H]. destruct tavily as [[|t kt]|]; try discriminate H.
      exists (t :: kt). split; [reflexivity | discriminate].
    + intros (kt & -> & Ht). destruct kt; [contradiction|].
      eexists. reflexivity.
  - split.
    + intros [c H]. destruct tavily as [[|t kt]|]; try discriminate H.
      exists (t :: kt). split; [reflexivity | discriminate].
    + intros (kt & -> & Ht). destruct kt; [contradiction|].
      eexists. reflexivity.
  - intros c H. destruct tavily as [[|t kt]|]; try discriminate H.
    destruct huggingface as [[|h kh]|]; try discriminate H.
    inversion H; subst. split; reflexivity.
  - intros c [H | H]; destruct tavily as [[|t kt]|]; try discriminate H;
      inversion H; subst; split; reflexivity.
  - intros [-> | ->]; repeat split.
Qed.

(** With only the Tavily key set, [maincode.py] stops and [newmain.py]
    starts. *)
Lemma startup_requirements_witness :
  Startup.maincode (Some (text "tvly-key")) None
  = Startup.ValueError Startup.HF_MISSING
  /\ (exists c, Startup.newmain (Some (text "tvly-key")) None
                = Startup.Started c)
  /\ Startup.accuracy None (Some (text "hf-key"))
     = Startup.ValueError Startup.TAVILY_MISSING.
Proof.
  split; [reflexivity|]. split.
  - apply (proj2 (proj1 (proj2 (startup_requirements
                                  (Some (text "tvly-key")) None)))).
    exists (text "tvly-key"). split; [reflexivity | discriminate].
  - apply (proj2 (proj2 (proj2 (proj2 (proj2
             (startup_requirements None (Some (text "hf-key")))))))).
    left. reflexivity.
Defined.
